(** * A length-prefixed file transfer protocol: server dispatch and framing

    Shallow embedding of [file_server.py] (class [FileServer]) and of
    [file_client.py] (class [FileClient]), together with the properties of
    the wire protocol, of the command dispatch and of the client's
    commands.

    Modelling conventions.
    - Python [bytes] are [list byte]; Python [str] is a Rocq [string] holding
      the UTF-8 encoding of the text (equality, emptiness and concatenation
      are preserved by the encoding); Python [int] is [Z].
    - Python objects that travel through [json] are values of [pyval]; a
      [dict] is an association list in insertion order with distinct keys.
    - The storage directory is a finite map from entry names to nodes
      (regular files and sub-directories).  [os.path.join(storage_dir, name)]
      is represented by the entry name itself: the model covers the flat
      namespace directly under the storage root.  Permissions, disk space and
      name-length limits are not modelled.
    - A socket is a pair of queues: the segments in which the peer's bytes
      arrive (every [recv] returns a prefix of the first pending segment, so
      any sequence of [recv] results is obtained from some segmentation) and
      the list of buffers handed to [send], one per call.  [send] is taken to
      transmit its whole buffer.
    - [json], [str()], [strftime] belong to the Python runtime, not to the
      repository: they are the fields of the class [Runtime] and every
      theorem holds for all of its instances.
    - A file that is written takes the [clock] of the world as its
      modification time.
    - The world keeps, next to the bytes written, a record of the calls of
      the two sending routines ([history]); it serves the statements only.
    - [print] calls are omitted. *)

From Stdlib Require Import ZArith Lia List Strings.Byte Ascii String.
From Stdlib Require Import Floats.SpecFloat.
From stdpp Require Import base gmap strings list fin_maps.

Import ListNotations.
Local Open Scope Z_scope.
#[local] Set Warnings "-register-all".


(** ** Bytes and integers *)

Abbreviation bytes := (list byte).

Definition len {A} (l : list A) : Z := Z.of_nat (length l).

Definition byte_to_Z (b : byte) : Z := Z.of_N (Byte.to_N b).

Definition byte_of_Z (z : Z) : byte :=
  match Byte.of_N (Z.to_N (z mod 256)) with
  | Some b => b
  | None => x00
  end.

(** Big-endian digits of [v] on [n] bytes (the high part is dropped). *)
Fixpoint be_digits (n : nat) (v : Z) : bytes :=
  match n with
  | O => []
  | S k => be_digits k (v / 256) ++ [byte_of_Z v]
  end.

(** [int.from_bytes(bs, byteorder='big')]. *)
Definition int_from_bytes (bs : bytes) : Z :=
  fold_left (fun acc b => acc * 256 + byte_to_Z b) bs 0.

(** ** Python values *)

Inductive pyval : Type :=
| PNone
| PBool (b : bool)
| PInt (n : Z)
| PFloat (f : spec_float)
| PStr (s : string)
| PBytes (b : bytes)
| PList (l : list pyval)
| PDict (d : list (string * pyval)).

Abbreviation dict := (list (string * pyval)).

(** [d[key]] as an option. *)
Fixpoint dict_lookup (key : string) (d : dict) : option pyval :=
  match d with
  | [] => None
  | (k, v) :: rest => if String.eqb k key then Some v else dict_lookup key rest
  end.

(** [d.get(key, default)]. *)
Definition dict_get (d : dict) (key : string) (default : pyval) : pyval :=
  match dict_lookup key d with
  | Some v => v
  | None => default
  end.

(** Truth value of an object, as tested by [if x:]. *)
Definition truthy (v : pyval) : bool :=
  match v with
  | PNone => false
  | PBool b => b
  | PInt n => negb (n =? 0)
  | PFloat (S754_zero _) => false
  | PFloat _ => true
  | PStr s => negb (String.eqb s "")
  | PBytes b => match b with [] => false | _ => true end
  | PList l => match l with [] => false | _ => true end
  | PDict d => match d with [] => false | _ => true end
  end.

(** [v == 'text'] for a string literal: false on every non-[str] object. *)
Definition eq_str (v : pyval) (text : string) : bool :=
  match v with
  | PStr s => String.eqb s text
  | _ => false
  end.

(** ** Exceptions and outcomes *)

Inductive exn : Type :=
| JSONDecodeError
| UnicodeDecodeError
| RecursionError
| ValueError
| AttributeError
| TypeError (culprit : pyval)
| KeyError (key : string)
| OverflowError
| FileNotFoundError (path : string)
| IsADirectoryError (path : string).

(** What running a piece of code yields.  [OutOfFuel] is not a Python
    exception: it marks a loop of the model that was given too few steps, and
    is shown never to happen for the loops as they are started. *)
Inductive outcome (A : Type) : Type :=
| Returned (a : A)
| Raised (e : exn)
| OutOfFuel.
Arguments Returned {A} a.
Arguments Raised {A} e.
Arguments OutOfFuel {A}.

(** ** The Python runtime *)

Class Runtime : Type := {
  (** [json.loads(data.decode('utf-8'))] *)
  json_loads : bytes -> exn + pyval;
  (** [json.dumps(obj).encode('utf-8')] *)
  json_dumps : pyval -> exn + bytes;
  (** [str(obj)] for an object that is not a [str] *)
  py_str : pyval -> string;
  (** [str(e)] for an exception *)
  exn_str : exn -> string;
  (** [datetime.fromtimestamp(t).strftime('%Y-%m-%d %H:%M:%S')] *)
  strftime : Z -> string
}.

(** Interpolation [f'{v}']: a [str] is inserted as it is. *)
Definition format_value `{Runtime} (v : pyval) : string :=
  match v with
  | PStr s => s
  | _ => py_str v
  end.

(** ** The world: storage directory and connection *)

Inductive node : Type :=
| RegularFile (content : bytes) (mtime : Z)
| Directory (st_size : Z) (mtime : Z).

(** Calls of the two sending routines, in order: a specification-only
    record next to the bytes actually written. *)
Inductive event : Type :=
| Respond (response : pyval)
| Payload (file_data : bytes).

Record world : Type := World {
  storage : gmap string node;
  clock : Z;
  inbound : list bytes;
  outbound : list bytes;
  history : list event;
  closed : bool
}.

Definition set_storage (fs : gmap string node) (w : world) : world :=
  World fs (clock w) (inbound w) (outbound w) (history w) (closed w).
Definition set_inbound (i : list bytes) (w : world) : world :=
  World (storage w) (clock w) i (outbound w) (history w) (closed w).
Definition set_outbound (o : list bytes) (w : world) : world :=
  World (storage w) (clock w) (inbound w) o (history w) (closed w).
Definition set_history (h : list event) (w : world) : world :=
  World (storage w) (clock w) (inbound w) (outbound w) h (closed w).
Definition set_closed (c : bool) (w : world) : world :=
  World (storage w) (clock w) (inbound w) (outbound w) (history w) c.

(** Bytes the peer has sent and the program has not read yet. *)
Definition pending (w : world) : nat := length (concat (inbound w)).

(** ** The monad of the program: state, exceptions *)

Definition M (A : Type) : Type := world -> outcome A * world.

Definition ret {A} (a : A) : M A := fun w => (Returned a, w).

Definition bind {A B} (m : M A) (k : A -> M B) : M B :=
  fun w =>
    match m w with
    | (Returned a, w') => k a w'
    | (Raised e, w') => (Raised e, w')
    | (OutOfFuel, w') => (OutOfFuel, w')
    end.

Definition raise {A} (e : exn) : M A := fun w => (Raised e, w).

(** [try: body / except Exception as e: handler(e)]. *)
Definition try_except {A} (body : M A) (handler : exn -> M A) : M A :=
  fun w =>
    match body w with
    | (Raised e, w') => handler e w'
    | r => r
    end.

(** [try: body / finally: cleanup]. *)
Definition try_finally {A} (body : M A) (cleanup : M unit) : M A :=
  fun w =>
    match body w with
    | (r, w') =>
        match cleanup w' with
        | (Returned _, w'') => (r, w'')
        | (Raised e, w'') => (Raised e, w'')
        | (OutOfFuel, w'') => (OutOfFuel, w'')
        end
    end.

Definition lift {A} (r : exn + A) : M A :=
  match r with
  | inl e => raise e
  | inr a => ret a
  end.

Declare Scope prog_scope.
Delimit Scope prog_scope with prog.
Notation "x <- m ;; k" := (bind m (fun x => k))
  (at level 100, m at next level, right associativity) : prog_scope.
Notation "m ;;; k" := (bind m (fun _ => k))
  (at level 100, right associativity) : prog_scope.

Local Open Scope prog_scope.

Definition out_of_fuel {A} : M A := fun w => (OutOfFuel, w).

(** Starts a loop of the model with one step more than there are unread
    bytes: every turn of the two [while] loops either reads at least one
    byte or leaves the loop. *)
Definition with_fuel {A} (loop : nat -> M A) : M A :=
  fun w => loop (S (pending w)) w.

(** [for x in xs: body(x)]. *)
Fixpoint for_each {A} (xs : list A) (body : A -> M unit) : M unit :=
  match xs with
  | [] => ret tt
  | x :: rest => body x ;;; for_each rest body
  end.

(** Appends to the specification-only record of calls. *)
Definition note (e : event) : M unit :=
  fun w => (Returned tt, set_history (history w ++ [e]) w).

(** ** Library calls: integers, sequences *)

(** [v.to_bytes(n, byteorder='big')] for a non-negative [v]. *)
Definition to_bytes (v : Z) (n : nat) : M bytes :=
  if (0 <=? v) && (v <? 256 ^ Z.of_nat n)
  then ret (be_digits n v)
  else raise OverflowError.

(** [range(start, stop, step)] for a positive [step]. *)
Definition py_range (start stop step : Z) : list Z :=
  map (fun k => start + Z.of_nat k * step)
      (seq 0 (Z.to_nat ((stop - start + step - 1) / step))).

(** [data[i:j]] for [0 <= i <= j]. *)
Definition slice {A} (data : list A) (i j : Z) : list A :=
  take (Z.to_nat (j - i)) (drop (Z.to_nat i) data).

(** [obj.get(key, default)]: only a [dict] has the method. *)
Definition py_get (obj : pyval) (key : string) (default : pyval) : M pyval :=
  match obj with
  | PDict d => ret (dict_get d key default)
  | _ => raise AttributeError
  end.

(** [obj[key]] for a string key. *)
Definition py_item (obj : pyval) (key : string) : M pyval :=
  match obj with
  | PDict d =>
      match dict_lookup key d with
      | Some v => ret v
      | None => raise (KeyError key)
      end
  | _ => raise (TypeError obj)
  end.

(** ** Library calls: the socket *)

(** One [recv] of at most [n] bytes: a prefix of the first non-empty
    segment, or nothing at the end of the stream. *)
Fixpoint recv_from (n : nat) (segs : list bytes) : bytes * list bytes :=
  match segs with
  | [] => ([], [])
  | [] :: rest => recv_from n rest
  | seg :: rest =>
      (take n seg,
       match drop n seg with
       | [] => rest
       | remaining => remaining :: rest
       end)
  end.

(** [sock.recv(bufsize)]. *)
Definition recv (bufsize : Z) : M bytes :=
  fun w =>
    let (chunk, rest) := recv_from (Z.to_nat bufsize) (inbound w) in
    (Returned chunk, set_inbound rest w).

(** [sock.send(data)]. *)
Definition send (data : bytes) : M unit :=
  fun w => (Returned tt, set_outbound (outbound w ++ [data]) w).

(** [sock.close()]. *)
Definition socket_close : M unit :=
  fun w => (Returned tt, set_closed true w).

(** ** Library calls: the storage directory *)

(** [os.path.join(storage_dir, filename)]: the path of an entry of the
    storage directory, represented by the entry's name.  Any object other
    than a [str] is refused. *)
Definition os_path_join (filename : pyval) : M string :=
  match filename with
  | PStr name => ret name
  | _ => raise (TypeError filename)
  end.

(** [os.path.exists(filepath)]. *)
Definition os_path_exists (filepath : string) : M bool :=
  fun w =>
    (Returned match storage w !! filepath with Some _ => true | None => false end, w).

(** [os.path.isfile(filepath)]. *)
Definition os_path_isfile (filepath : string) : M bool :=
  fun w =>
    (Returned match storage w !! filepath with
              | Some (RegularFile _ _) => true
              | _ => false
              end, w).

(** [os.stat(filepath)], reduced to the pair [(st_size, st_mtime)]. *)
Definition os_stat (filepath : string) : M (Z * Z) :=
  fun w =>
    match storage w !! filepath with
    | Some (RegularFile content mtime) => (Returned (len content, mtime), w)
    | Some (Directory st_size mtime) => (Returned (st_size, mtime), w)
    | None => (Raised (FileNotFoundError filepath), w)
    end.

(** [os.listdir(storage_dir)]: the entry names, in the directory's order. *)
Definition os_listdir : M (list string) :=
  fun w => (Returned (map fst (map_to_list (storage w))), w).

(** [os.remove(filepath)]. *)
Definition os_remove (filepath : string) : M unit :=
  fun w =>
    match storage w !! filepath with
    | Some (RegularFile _ _) => (Returned tt, set_storage (delete filepath (storage w)) w)
    | Some (Directory _ _) => (Raised (IsADirectoryError filepath), w)
    | None => (Raised (FileNotFoundError filepath), w)
    end.

(** [with open(filepath, 'wb') as f: f.write(data)]: the file is created or
    truncated, then written. *)
Definition write_file (filepath : string) (data : bytes) : M unit :=
  fun w =>
    match storage w !! filepath with
    | Some (Directory _ _) => (Raised (IsADirectoryError filepath), w)
    | _ =>
        (Returned tt,
         set_storage (<[filepath := RegularFile data (clock w)]> (storage w)) w)
    end.

(** [with open(filepath, 'rb') as f: return f.read()]. *)
Definition read_file (filepath : string) : M bytes :=
  fun w =>
    match storage w !! filepath with
    | Some (RegularFile content _) => (Returned content, w)
    | Some (Directory _ _) => (Raised (IsADirectoryError filepath), w)
    | None => (Raised (FileNotFoundError filepath), w)
    end.

(** Whether the loop goes on to its next turn or is left by [break]. *)
Inductive flow : Type := Continue | Break.

(** ** The server: class [FileServer] *)

Module FileServer.
Section WithRuntime.
Context `{Runtime}.

(** [{'status': 'error', 'message': message}]. *)
Definition error_response (message : string) : pyval :=
  PDict [("status", PStr "error"); ("message", PStr message)].

(** [get_file_info] (lines 22-33). *)
Definition get_file_info (filename : string) : M pyval :=
  filepath <- os_path_join (PStr filename) ;;
  present <- os_path_exists filepath ;;
  if present : bool then
    stat <- os_stat filepath ;;
    ret (PDict [("name", PStr filename);
                ("size", PInt (fst stat));
                ("modified", PStr (strftime (snd stat)));
                ("exists", PBool true)])
  else
    ret (PDict [("name", PStr filename); ("exists", PBool false)]).

(** The [for filename in os.listdir(...)] loop of [list_files]. *)
Fixpoint list_files_loop (names : list string) (files : list pyval)
  : M (list pyval) :=
  match names with
  | [] => ret files
  | filename :: rest =>
      filepath <- os_path_join (PStr filename) ;;
      isfile <- os_path_isfile filepath ;;
      if isfile : bool then
        info <- get_file_info filename ;;
        list_files_loop rest (files ++ [info])
      else
        list_files_loop rest files
  end.

(** [list_files] (lines 35-45). *)
Definition list_files : M pyval :=
  try_except
    (names <- os_listdir ;;
     files <- list_files_loop names [] ;;
     ret (PDict [("status", PStr "success"); ("files", PList files)]))
    (fun e => ret (error_response (exn_str e))).

(** [store_file] (lines 47-55).  The file name is whatever the request
    carried; [os.path.join] refuses what is not a [str]. *)
Definition store_file (filename : pyval) (file_data : bytes) : M pyval :=
  try_except
    (filepath <- os_path_join filename ;;
     write_file filepath file_data ;;;
     ret (PDict [("status", PStr "success");
                 ("message",
                  PStr ("File " +:+ format_value filename +:+ " stored successfully"));
                 ("size", PInt (len file_data))]))
    (fun e => ret (error_response (exn_str e))).

(** [delete_file] (lines 57-67). *)
Definition delete_file (filename : pyval) : M pyval :=
  try_except
    (filepath <- os_path_join filename ;;
     present <- os_path_exists filepath ;;
     if present : bool then
       os_remove filepath ;;;
       ret (PDict [("status", PStr "success");
                   ("message",
                    PStr ("File " +:+ format_value filename +:+ " deleted successfully"))])
     else
       ret (error_response ("File " +:+ format_value filename +:+ " not found")))
    (fun e => ret (error_response (exn_str e))).

(** [get_file] (lines 69-80). *)
Definition get_file (filename : pyval) : M pyval :=
  try_except
    (filepath <- os_path_join filename ;;
     present <- os_path_exists filepath ;;
     if present : bool then
       file_data <- read_file filepath ;;
       ret (PDict [("status", PStr "success");
                   ("data", PBytes file_data);
                   ("size", PInt (len file_data))])
     else
       ret (error_response ("File " +:+ format_value filename +:+ " not found")))
    (fun e => ret (error_response (exn_str e))).

(** [send_response] (lines 82-95).  [note] records the call. *)
Definition send_response (response : pyval) : M unit :=
  note (Respond response) ;;;
  try_except
    (response_bytes <- lift (json_dumps response) ;;
     let length := len response_bytes in
     prefix <- to_bytes length 4 ;;
     send prefix ;;;
     send response_bytes)
    (fun e => ret tt).

(** [send_file_data] (lines 97-110).  [note] records the call. *)
Definition send_file_data (file_data : bytes) : M unit :=
  note (Payload file_data) ;;;
  try_except
    (let file_size := len file_data in
     prefix <- to_bytes file_size 8 ;;
     send prefix ;;;
     let chunk_size := 4096 in
     for_each (py_range 0 file_size chunk_size)
              (fun i => send (slice file_data i (i + chunk_size))))
    (fun e => ret tt).

(** The [while len(file_data) < file_size] loop of [receive_file_data]. *)
Fixpoint receive_loop (fuel : nat) (file_size : Z) (file_data : bytes)
  : M bytes :=
  if len file_data <? file_size then
    match fuel with
    | O => out_of_fuel
    | S fuel' =>
        chunk <- recv (Z.min 4096 (file_size - len file_data)) ;;
        match chunk with
        | [] => ret file_data
        | _ => receive_loop fuel' file_size (file_data ++ chunk)
        end
    end
  else ret file_data.

(** [receive_file_data] (lines 112-133).  Returns [Some data], or [None]
    for Python's [None]. *)
Definition receive_file_data : M (option bytes) :=
  try_except
    (size_bytes <- recv 8 ;;
     if negb (len size_bytes =? 8) then ret None
     else
       let file_size := int_from_bytes size_bytes in
       file_data <- with_fuel (fun fuel => receive_loop fuel file_size []) ;;
       ret (Some file_data))
    (fun e => ret None).

(** The body of the inner [try] of [handle_client] (lines 153-212): one
    request, already read from the socket.  In the DOWNLOAD branch
    [result['data']] is always [bytes], as [get_file] builds it. *)
Definition handle_request (request_data : bytes) : M flow :=
  try_except
    (request <- lift (json_loads request_data) ;;
     command <- py_get request "command" (PStr "") ;;
     if eq_str command "LIST" then
       response <- list_files ;;
       send_response response ;;;
       ret Continue
     else if eq_str command "UPLOAD" then
       filename <- py_get request "filename" (PStr "") ;;
       response <-
         (if truthy filename then
            file_data <- receive_file_data ;;
            match file_data with
            | Some data => store_file filename data
            | None => ret (error_response "Failed to receive file data")
            end
          else ret (error_response "Filename not provided")) ;;
       send_response response ;;;
       ret Continue
     else if eq_str command "DOWNLOAD" then
       filename <- py_get request "filename" (PStr "") ;;
       (if truthy filename then
          result <- get_file filename ;;
          status <- py_item result "status" ;;
          if eq_str status "success" then
            size <- py_item result "size" ;;
            send_response (PDict [("status", PStr "success"); ("size", size)]) ;;;
            data <- py_item result "data" ;;
            match data with
            | PBytes file_data => send_file_data file_data
            | _ => raise (TypeError data)
            end
          else send_response result
        else send_response (error_response "Filename not provided")) ;;;
       ret Continue
     else if eq_str command "DELETE" then
       filename <- py_get request "filename" (PStr "") ;;
       response <-
         (if truthy filename then delete_file filename
          else ret (error_response "Filename not provided")) ;;
       send_response response ;;;
       ret Continue
     else if eq_str command "QUIT" then
       send_response (PDict [("status", PStr "success"); ("message", PStr "Goodbye!")]) ;;;
       ret Break
     else
       send_response (error_response ("Unknown command: " +:+ format_value command)) ;;;
       ret Continue)
    (fun e =>
       match e with
       | JSONDecodeError =>
           send_response (error_response "Invalid request format") ;;;
           ret Continue
       | _ => raise e
       end).

(** One turn of the [while True] loop of [handle_client] (lines 141-212). *)
Definition serve_once : M flow :=
  length_bytes <- recv 4 ;;
  match length_bytes with
  | [] => ret Break
  | _ =>
      let request_length := int_from_bytes length_bytes in
      request_data <- recv request_length ;;
      match request_data with
      | [] => ret Break
      | _ => handle_request request_data
      end
  end.

(** The [while True] loop of [handle_client] (line 140). *)
Fixpoint serve_loop (fuel : nat) : M unit :=
  match fuel with
  | O => out_of_fuel
  | S fuel' =>
      next <- serve_once ;;
      match next with
      | Continue => serve_loop fuel'
      | Break => ret tt
      end
  end.

(** [handle_client] (lines 135-218): the loop inside
    [try]/[except Exception]/[finally: client_socket.close()]. *)
Definition handle_client : M unit :=
  try_finally
    (try_except (with_fuel serve_loop) (fun e => ret tt))
    socket_close.

End WithRuntime.
End FileServer.

(** ** The client: the sending half of class [FileClient]

    The client's [world] holds its own files (keyed by the path given to
    [open]) and its end of the connection. *)

Module FileClient.
Section WithRuntime.
Context `{Runtime}.

(** [send_request] (lines 40-54); the exception is raised again. *)
Definition send_request (request : pyval) : M unit :=
  try_except
    (request_bytes <- lift (json_dumps request) ;;
     let length := len request_bytes in
     prefix <- to_bytes length 4 ;;
     send prefix ;;;
     send request_bytes)
    (fun e => raise e).

(** [send_file_data] (lines 76-95). *)
Definition send_file_data (filepath : string) : M bool :=
  try_except
    (file_data <- read_file filepath ;;
     let file_size := len file_data in
     prefix <- to_bytes file_size 8 ;;
     send prefix ;;;
     let chunk_size := 4096 in
     for_each (py_range 0 file_size chunk_size)
              (fun i => send (slice file_data i (i + chunk_size))) ;;;
     ret true)
    (fun e => ret false).

End WithRuntime.
End FileClient.

(** ** What the sending routines put on the wire *)

Section Wire.
Context `{Runtime}.

(** The buffers written for a control message: the four-byte length, then
    the text; nothing at all when the message cannot be serialised or its
    length does not fit in four bytes. *)
Definition control_frame (message : pyval) : list bytes :=
  match json_dumps message with
  | inr body =>
      if len body <? 256 ^ 4 then [be_digits 4 (len body); body] else []
  | inl _ => []
  end.

(** The buffers written for a raw payload: the eight-byte length, then the
    content in chunks of 4096 bytes. *)
Definition payload_frame (file_data : bytes) : list bytes :=
  if len file_data <? 256 ^ 8 then
    be_digits 8 (len file_data)
    :: map (fun i => slice file_data i (i + 4096)) (py_range 0 (len file_data) 4096)
  else [].

End Wire.

(** The world after a call of a sending routine: the buffers are appended
    to the output and the call is recorded. *)
Definition sent (frames : list bytes) (e : event) (w : world) : world :=
  World (storage w) (clock w) (inbound w) (outbound w ++ frames)
        (history w ++ [e]) (closed w).

(** The entries of the optional fields of a response that are populated. *)
Definition populated (response : pyval) : list string :=
  match response with
  | PDict d =>
      filter (fun key => bool_decide (is_Some (dict_lookup key d)))
             ["message"; "size"; "files"]
  | _ => []
  end.

(** The [status] field of a response. *)
Definition status_of (response : pyval) : pyval :=
  match response with
  | PDict d => dict_get d "status" PNone
  | _ => PNone
  end.


(** Whether a name denotes a sub-directory of the storage directory. *)
Definition is_directory (fs : gmap string node) (name : string) : bool :=
  match fs !! name with
  | Some (Directory _ _) => true
  | _ => false
  end.

(** The content of the regular file of that name, if there is one. *)
Definition file_content (fs : gmap string node) (name : string) : option bytes :=
  match fs !! name with
  | Some (RegularFile content _) => Some content
  | _ => None
  end.

(** The two [recv] calls at the top of the loop of [handle_client] deliver
    the non-empty request [request_data], taking the world from [w0] to
    [w]. *)
Definition reads_request (w0 : world) (request_data : bytes) (w : world) : Prop :=
  exists length_bytes w',
    recv 4 w0 = (Returned length_bytes, w')
    /\ length_bytes <> []
    /\ recv (int_from_bytes length_bytes) w' = (Returned request_data, w)
    /\ request_data <> [].

(** The same loop as run by [handle_client], with a given number of turns
    allowed: the [try]/[except]/[finally] around it closes the socket. *)
Definition handle_client_for `{Runtime} (fuel : nat) : M unit :=
  try_finally
    (try_except (FileServer.serve_loop fuel) (fun e => ret tt))
    socket_close.

(** The command of a request: the [command] field, or the empty string. *)
Definition command_of (request : dict) : pyval :=
  dict_get request "command" (PStr "").

(** The file name of a request: the [filename] field, or the empty string. *)
Definition filename_of (request : dict) : pyval :=
  dict_get request "filename" (PStr "").

(** Every regular file of the directory is shorter than [2 ^ 64] bytes. *)
Definition sizes_fit (fs : gmap string node) : Prop :=
  forall name content, file_content fs name = Some content -> len content < 256 ^ 8.

(** The metadata entry that LIST gives for a regular file. *)
Definition file_entry `{Runtime} (name : string) (content : bytes) (mtime : Z) : pyval :=
  PDict [("name", PStr name);
         ("size", PInt (len content));
         ("modified", PStr (strftime mtime));
         ("exists", PBool true)].

(** The entries of the regular files among the given directory entries. *)
Definition entries_of `{Runtime} (l : list (string * node)) : list pyval :=
  flat_map (fun entry =>
              match snd entry with
              | RegularFile content mtime => [file_entry (fst entry) content mtime]
              | Directory _ _ => []
              end) l.

(** The optional fields that each kind of response populates: [message] for
    an error; for a success, [files] after LIST, [size] after DOWNLOAD,
    [message] and [size] after UPLOAD, [message] after DELETE and QUIT. *)
Definition expected_fields (command status : pyval) : list string :=
  if eq_str status "error" then ["message"]
  else if eq_str command "LIST" then ["files"]
  else if eq_str command "DOWNLOAD" then ["size"]
  else if eq_str command "UPLOAD" then ["message"; "size"]
  else ["message"].

(** The command of a request as received: [None] when the bytes do not
    decode to a map. *)
Definition command_of_data `{Runtime} (request_data : bytes) : pyval :=
  match json_loads request_data with
  | inr (PDict request) => command_of request
  | _ => PNone
  end.

(** A response has a status, [success] or [error], and populates the
    optional fields expected for the command it answers. *)
Definition response_ok (command response : pyval) : Prop :=
  (status_of response = PStr "success" \/ status_of response = PStr "error")
  /\ populated response = expected_fields command (status_of response).

Definition event_ok (command : pyval) (e : event) : Prop :=
  match e with
  | Respond response => response_ok command response
  | Payload _ => True
  end.

(** What a piece of the server may do to the connection: read from the
    stream (never put back), record [events], and leave the socket open. *)
Definition advances (w w' : world) (events : list event) : Prop :=
  (pending w' <= pending w)%nat
  /\ history w' = history w ++ events
  /\ closed w' = closed w.

(** ** A reference runtime

    A concrete instance of [Runtime], used to run the model on examples:
    a JSON reader and writer after CPython's [json] module with its default
    settings (no limit on nesting depth or on the number of digits of an
    integer), [repr]-style printing of values, CPython's messages for the
    exceptions of the model, and timestamps printed in UTC.  The [repr] of a
    [str] is exact for ASCII text.  No theorem depends on these choices. *)

Module Reference.

Definition code (c : ascii) : Z := Z.of_N (N_of_ascii c).
Definition chr (z : Z) : ascii := ascii_of_N (Z.to_N z).

Definition to_chars (b : bytes) : list ascii := map ascii_of_byte b.
Definition of_chars (s : list ascii) : bytes := map byte_of_ascii s.
Definition text (s : string) : list ascii := list_ascii_of_string s.

Definition is_digit (c : ascii) : bool := (48 <=? code c) && (code c <=? 57).

Definition digit_char (d : Z) : ascii := chr (48 + d).

(** Decimal digits of a non-negative integer, most significant first. *)
Fixpoint digits_of (fuel : nat) (z : Z) (acc : list ascii) : list ascii :=
  match fuel with
  | O => acc
  | S fuel' =>
      if z <? 10 then digit_char z :: acc
      else digits_of fuel' (z / 10) (digit_char (z mod 10) :: acc)
  end.

Definition show_nat (z : Z) : list ascii :=
  digits_of (S (Z.to_nat (Z.log2 z))) z [].

Definition show_int (z : Z) : list ascii :=
  if z <? 0 then "-"%char :: show_nat (- z) else show_nat z.

(** Value of a string of decimal digits. *)
Definition digits_value (ds : list ascii) : Z :=
  fold_left (fun acc c => acc * 10 + (code c - 48)) ds 0.

(** *** Floats: decimal to binary and back *)

(** The double nearest to [m * 10 ^ e] for [m >= 0], with the given sign,
    ties to even: the quotient is taken with more than 60 bits and a sticky
    bit, then rounded once. *)
Definition float_of_decimal (neg : bool) (m e : Z) : spec_float :=
  if m <=? 0 then S754_zero neg
  else if 0 <=? e then
    match m * 10 ^ e with
    | Zpos v => binary_round 53 1024 neg v 0
    | _ => S754_zero neg
    end
  else
    let d := 10 ^ (- e) in
    let s := Z.max 0 (64 + Z.log2 d - Z.log2 m) in
    let n := m * 2 ^ s in
    let sticky := if n mod d =? 0 then 0 else 1 in
    match 2 * (n / d) + sticky with
    | Zpos v => binary_round 53 1024 neg v (- s - 1)
    | _ => S754_zero neg
    end.

(** [10 ^ k <= n / d] for positive [n], [d]. *)
Definition pow10_le (k n d : Z) : bool :=
  if 0 <=? k then d * 10 ^ k <=? n else d <=? n * 10 ^ (- k).

(** [floor (log10 (n / d))] for positive [n], [d]. *)
Definition log10_floor (n d : Z) : Z :=
  let k0 := (Z.log2 n - Z.log2 d) * 30103 / 100000 in
  if pow10_le (k0 + 2) n d then k0 + 2
  else if pow10_le (k0 + 1) n d then k0 + 1
  else if pow10_le k0 n d then k0
  else if pow10_le (k0 - 1) n d then k0 - 1
  else k0 - 2.

Fixpoint strip_zeros (fuel : nat) (digits x : Z) : Z * Z :=
  match fuel with
  | O => (digits, x)
  | S fuel' =>
      if (0 <? digits) && (digits mod 10 =? 0)
      then strip_zeros fuel' (digits / 10) (x + 1)
      else (digits, x)
  end.

(** The decimals [digits * 10 ^ x] with at most [p] digits that read back
    as the double [m * 2 ^ e], the one nearest to it first. *)
Definition candidates (p : Z) (m : positive) (e : Z) : list (Z * Z) :=
  let n := if 0 <=? e then Zpos m * 2 ^ e else Zpos m in
  let d := if 0 <=? e then 1 else 2 ^ (- e) in
  let x := log10_floor n d - p + 1 in
  let num := if 0 <=? x then n else n * 10 ^ (- x) in
  let den := if 0 <=? x then d * 10 ^ x else d in
  let lo := num / den in
  let r := num mod den in
  let back c := SFeqb (float_of_decimal false c x) (S754_finite false m e) in
  let near :=
    if r =? 0 then [lo]
    else if 2 * r <? den then [lo; lo + 1]
    else if den <? 2 * r then [lo + 1; lo]
    else if Z.even lo then [lo; lo + 1] else [lo + 1; lo] in
  map (fun c => (c, x)) (filter back near).

(** The shortest decimal that reads back as the double, as [repr] finds
    it: its digits and the position of the decimal point after them. *)
Fixpoint shortest (tries : nat) (p : Z) (m : positive) (e : Z) : Z * Z :=
  match tries with
  | O => (Zpos m, 0)
  | S tries' =>
      match candidates p m e with
      | (c, x) :: _ => strip_zeros 20 c x
      | [] => shortest tries' (p + 1) m e
      end
  end.

Definition zeros (n : Z) : list ascii := repeat "0"%char (Z.to_nat n).

(** [repr] of a finite non-zero double without its sign. *)
Definition show_finite (m : positive) (e : Z) : list ascii :=
  let (c, x) := shortest 17 1 m e in
  let ds := show_nat c in
  let nd := len ds in
  let decpt := nd + x in
  if (decpt <=? -4) || (16 <? decpt) then
    let ex := decpt - 1 in
    let mant :=
      match ds with
      | d1 :: [] => [d1]
      | d1 :: more => d1 :: "."%char :: more
      | [] => []
      end in
    let exs := show_nat (Z.abs ex) in
    mant ++ ["e"%char; if ex <? 0 then "-"%char else "+"%char]
         ++ (if Z.abs ex <? 10 then "0"%char :: exs else exs)
  else if decpt <=? 0 then
    text "0." ++ zeros (- decpt) ++ ds
  else if decpt <? nd then
    take (Z.to_nat decpt) ds ++ "."%char :: drop (Z.to_nat decpt) ds
  else
    ds ++ zeros (decpt - nd) ++ text ".0".

Definition sign_chars (s : bool) : list ascii := if s then ["-"%char] else [].

(** [repr(f)] *)
Definition float_repr (f : spec_float) : list ascii :=
  match f with
  | S754_zero s => sign_chars s ++ text "0.0"
  | S754_infinity s => sign_chars s ++ text "inf"
  | S754_nan => text "nan"
  | S754_finite s m e => sign_chars s ++ show_finite m e
  end.

(** *** UTF-8 *)

Definition cont (c : ascii) : bool := (128 <=? code c) && (code c <=? 191).
Definition between (lo hi : Z) (c : ascii) : bool := (lo <=? code c) && (code c <=? hi).

(** Well-formed UTF-8, as the strict decoder of CPython accepts it. *)
Fixpoint utf8_valid (fuel : nat) (s : list ascii) : bool :=
  match fuel with
  | O => match s with [] => true | _ => false end
  | S fuel' =>
      match s with
      | [] => true
      | a :: r =>
          if code a <? 128 then utf8_valid fuel' r
          else if between 194 223 a then
            match r with
            | b :: r' => cont b && utf8_valid fuel' r'
            | _ => false
            end
          else if between 224 239 a then
            match r with
            | b :: c :: r' =>
                (if code a =? 224 then between 160 191 b
                 else if code a =? 237 then between 128 159 b
                 else cont b)
                && cont c && utf8_valid fuel' r'
            | _ => false
            end
          else if between 240 244 a then
            match r with
            | b :: c :: d :: r' =>
                (if code a =? 240 then between 144 191 b
                 else if code a =? 244 then between 128 143 b
                 else cont b)
                && cont c && cont d && utf8_valid fuel' r'
            | _ => false
            end
          else false
      end
  end.

(** UTF-8 bytes of a code point (a lone surrogate takes three bytes). *)
Definition utf8_encode (cp : Z) : list ascii :=
  if cp <? 128 then [chr cp]
  else if cp <? 2048 then [chr (192 + cp / 64); chr (128 + cp mod 64)]
  else if cp <? 65536 then
    [chr (224 + cp / 4096); chr (128 + cp / 64 mod 64); chr (128 + cp mod 64)]
  else
    [chr (240 + cp / 262144); chr (128 + cp / 4096 mod 64);
     chr (128 + cp / 64 mod 64); chr (128 + cp mod 64)].

(** The first code point of UTF-8 text and the rest of the text. *)
Definition utf8_next (s : list ascii) : option (Z * list ascii) :=
  match s with
  | [] => None
  | a :: r =>
      if code a <? 128 then Some (code a, r)
      else if code a <? 224 then
        match r with
        | b :: r' => Some ((code a - 192) * 64 + (code b - 128), r')
        | _ => Some (code a, r)
        end
      else if code a <? 240 then
        match r with
        | b :: c :: r' =>
            Some (((code a - 224) * 64 + (code b - 128)) * 64 + (code c - 128), r')
        | _ => Some (code a, r)
        end
      else
        match r with
        | b :: c :: d :: r' =>
            Some ((((code a - 240) * 64 + (code b - 128)) * 64 + (code c - 128)) * 64
                  + (code d - 128), r')
        | _ => Some (code a, r)
        end
  end.

(** *** Reading JSON *)

Definition is_ws (c : ascii) : bool :=
  (code c =? 32) || (code c =? 9) || (code c =? 10) || (code c =? 13).

Fixpoint skip_ws (s : list ascii) : list ascii :=
  match s with
  | c :: r => if is_ws c then skip_ws r else s
  | [] => []
  end.

Fixpoint take_digits (s : list ascii) : list ascii * list ascii :=
  match s with
  | c :: r =>
      if is_digit c then let (ds, rest) := take_digits r in (c :: ds, rest)
      else ([], s)
  | [] => ([], [])
  end.

Definition hex_value (c : ascii) : option Z :=
  if is_digit c then Some (code c - 48)
  else if between 97 102 c then Some (code c - 87)
  else if between 65 70 c then Some (code c - 55)
  else None.

Definition hex4 (s : list ascii) : option (Z * list ascii) :=
  match s with
  | a :: b :: c :: d :: rest =>
      match hex_value a, hex_value b, hex_value c, hex_value d with
      | Some x, Some y, Some z, Some t => Some (((x * 16 + y) * 16 + z) * 16 + t, rest)
      | _, _, _, _ => None
      end
  | _ => None
  end.

Definition simple_escape (c : ascii) : option ascii :=
  if code c =? 34 then Some c
  else if code c =? 92 then Some c
  else if code c =? 47 then Some c
  else if code c =? 98 then Some (chr 8)
  else if code c =? 102 then Some (chr 12)
  else if code c =? 110 then Some (chr 10)
  else if code c =? 114 then Some (chr 13)
  else if code c =? 116 then Some (chr 9)
  else None.

(** The text of a string literal after its opening quote. *)
Fixpoint scan_string (fuel : nat) (s : list ascii) : option (list ascii * list ascii) :=
  match fuel with
  | O => None
  | S fuel' =>
      match s with
      | [] => None
      | c :: r =>
          if code c =? 34 then Some ([], r)
          else if code c =? 92 then
            match r with
            | [] => None
            | e :: r' =>
                if code e =? 117 then
                  match hex4 r' with
                  | None => None
                  | Some (hi, r1) =>
                      let single :=
                        match scan_string fuel' r1 with
                        | Some (more, rest) => Some (utf8_encode hi ++ more, rest)
                        | None => None
                        end in
                      if (55296 <=? hi) && (hi <=? 56319) then
                        match r1 with
                        | b :: u :: r2 =>
                            if (code b =? 92) && (code u =? 117) then
                              match hex4 r2 with
                              | None => None
                              | Some (lo, r3) =>
                                  if (56320 <=? lo) && (lo <=? 57343) then
                                    match scan_string fuel' r3 with
                                    | Some (more, rest) =>
                                        Some (utf8_encode
                                                (65536 + (hi - 55296) * 1024 + (lo - 56320))
                                                ++ more, rest)
                                    | None => None
                                    end
                                  else single
                              end
                            else single
                        | _ => single
                        end
                      else single
                  end
                else
                  match simple_escape e with
                  | None => None
                  | Some x =>
                      match scan_string fuel' r' with
                      | Some (more, rest) => Some (x :: more, rest)
                      | None => None
                      end
                  end
            end
          else if code c <? 32 then None
          else
            match scan_string fuel' r with
            | Some (more, rest) => Some (c :: more, rest)
            | None => None
            end
      end
  end.

(** A number literal: an optional minus sign, then [0] or a digit string
    without leading zero, then an optional fraction (a dot and digits) and
    an optional exponent ([e] or [E], an optional sign, digits).  It is an
    [int] when it has neither fraction nor exponent, else a [float]. *)
Definition scan_number (s : list ascii) : option (pyval * list ascii) :=
  let (neg, s1) :=
    match s with
    | c :: r => if code c =? 45 then (true, r) else (false, s)
    | [] => (false, s)
    end in
  let integer :=
    match s1 with
    | c :: r =>
        if code c =? 48 then Some ([c], r)
        else if is_digit c then Some (take_digits s1)
        else None
    | [] => None
    end in
  match integer with
  | None => None
  | Some (ds, s2) =>
      let (frac, s3) :=
        match s2 with
        | c :: r =>
            if code c =? 46 then
              match take_digits r with
              | ([], _) => ([], s2)
              | (fs, rest) => (fs, rest)
              end
            else ([], s2)
        | [] => ([], s2)
        end in
      let '(has_exp, ex, s4) :=
        match s3 with
        | c :: r =>
            if (code c =? 101) || (code c =? 69) then
              let (eneg, r1) :=
                match r with
                | g :: r' =>
                    if code g =? 45 then (true, r')
                    else if code g =? 43 then (false, r')
                    else (false, r)
                | [] => (false, r)
                end in
              match take_digits r1 with
              | ([], _) => (false, 0, s3)
              | (es, rest) =>
                  (true, if eneg then - digits_value es else digits_value es, rest)
              end
            else (false, 0, s3)
        | [] => (false, 0, s3)
        end in
      match frac, has_exp with
      | [], false =>
          Some (PInt (if neg then - digits_value ds else digits_value ds), s4)
      | _, _ =>
          Some (PFloat (float_of_decimal neg (digits_value (ds ++ frac)) (ex - len frac)), s4)
      end
  end.

(** [dict(pairs)]: a repeated key keeps its place and takes the last value. *)
Fixpoint dict_set (d : dict) (key : string) (v : pyval) : dict :=
  match d with
  | [] => [(key, v)]
  | (k, x) :: rest =>
      if String.eqb k key then (k, v) :: rest else (k, x) :: dict_set rest key v
  end.

Definition starts_with (p : string) (s : list ascii) : option (list ascii) :=
  let n := length (text p) in
  if bool_decide (take n s = text p) then Some (drop n s) else None.

(** One JSON value at the head of [s]; [scan_items] and [scan_members] read
    the rest of an array after its first [[] and of an object after its
    first [{], given what was read so far. *)
Fixpoint scan_value (fuel : nat) (s : list ascii) : option (pyval * list ascii) :=
  match fuel with
  | O => None
  | S fuel' =>
      match s with
      | [] => None
      | c :: r =>
          if code c =? 34 then
            match scan_string (length r) r with
            | Some (cs, rest) => Some (PStr (string_of_list_ascii cs), rest)
            | None => None
            end
          else if code c =? 123 then
            match skip_ws r with
            | c' :: r' =>
                if code c' =? 125 then Some (PDict [], r')
                else scan_members fuel' (c' :: r') []
            | [] => None
            end
          else if code c =? 91 then
            match skip_ws r with
            | c' :: r' =>
                if code c' =? 93 then Some (PList [], r')
                else scan_items fuel' (c' :: r') []
            | [] => None
            end
          else
            match starts_with "null" s, starts_with "true" s, starts_with "false" s with
            | Some rest, _, _ => Some (PNone, rest)
            | _, Some rest, _ => Some (PBool true, rest)
            | _, _, Some rest => Some (PBool false, rest)
            | _, _, _ =>
                match starts_with "NaN" s, starts_with "Infinity" s,
                      starts_with "-Infinity" s with
                | Some rest, _, _ => Some (PFloat S754_nan, rest)
                | _, Some rest, _ => Some (PFloat (S754_infinity false), rest)
                | _, _, Some rest => Some (PFloat (S754_infinity true), rest)
                | _, _, _ => scan_number s
                end
            end
      end
  end
with scan_items (fuel : nat) (s : list ascii) (acc : list pyval)
  : option (pyval * list ascii) :=
  match fuel with
  | O => None
  | S fuel' =>
      match scan_value fuel' s with
      | None => None
      | Some (v, rest) =>
          match skip_ws rest with
          | c :: r =>
              if code c =? 93 then Some (PList (acc ++ [v]), r)
              else if code c =? 44 then scan_items fuel' (skip_ws r) (acc ++ [v])
              else None
          | [] => None
          end
      end
  end
with scan_members (fuel : nat) (s : list ascii) (acc : dict)
  : option (pyval * list ascii) :=
  match fuel with
  | O => None
  | S fuel' =>
      match s with
      | q :: r =>
          if code q =? 34 then
            match scan_string (length r) r with
            | None => None
            | Some (ks, rest) =>
                match skip_ws rest with
                | colon :: r1 =>
                    if code colon =? 58 then
                      match scan_value fuel' (skip_ws r1) with
                      | None => None
                      | Some (v, rest') =>
                          let acc' := dict_set acc (string_of_list_ascii ks) v in
                          match skip_ws rest' with
                          | c :: r2 =>
                              if code c =? 125 then Some (PDict acc', r2)
                              else if code c =? 44 then scan_members fuel' (skip_ws r2) acc'
                              else None
                          | [] => None
                          end
                      end
                    else None
                | [] => None
                end
            end
          else None
      | [] => None
      end
  end.

(** [json.loads(data.decode('utf-8'))] *)
Definition loads (data : bytes) : exn + pyval :=
  let s := to_chars data in
  if utf8_valid (length s) s then
    match scan_value (S (2 * length s)) (skip_ws s) with
    | Some (v, rest) =>
        match skip_ws rest with
        | [] => inr v
        | _ => inl JSONDecodeError
        end
    | None => inl JSONDecodeError
    end
  else inl UnicodeDecodeError.

(** *** Writing JSON and printing values *)

Definition hex_digit (d : Z) : ascii := if d <? 10 then chr (48 + d) else chr (87 + d).

Definition hex_digits4 (cp : Z) : list ascii :=
  [hex_digit (cp / 4096); hex_digit (cp / 256 mod 16);
   hex_digit (cp / 16 mod 16); hex_digit (cp mod 16)].

Definition u_escape (cp : Z) : list ascii := text "\u" ++ hex_digits4 cp.

(** One code point inside a JSON string, with [ensure_ascii]. *)
Definition json_char (cp : Z) : list ascii :=
  if cp =? 34 then [chr 92; chr 34]
  else if cp =? 92 then [chr 92; chr 92]
  else if cp =? 10 then text "\n"
  else if cp =? 13 then text "\r"
  else if cp =? 9 then text "\t"
  else if cp =? 8 then text "\b"
  else if cp =? 12 then text "\f"
  else if (32 <=? cp) && (cp <=? 126) then [chr cp]
  else if cp <? 65536 then u_escape cp
  else u_escape (55296 + (cp - 65536) / 1024) ++ u_escape (56320 + (cp - 65536) mod 1024).

Fixpoint map_points (fuel : nat) (f : Z -> list ascii) (s : list ascii) : list ascii :=
  match fuel with
  | O => []
  | S fuel' =>
      match utf8_next s with
      | None => []
      | Some (cp, rest) => f cp ++ map_points fuel' f rest
      end
  end.

Definition json_string (s : string) : list ascii :=
  chr 34 :: map_points (String.length s) json_char (text s) ++ [chr 34].

Fixpoint join (sep : list ascii) (parts : list (list ascii)) : list ascii :=
  match parts with
  | [] => []
  | [p] => p
  | p :: rest => p ++ sep ++ join sep rest
  end.

Definition all_some {A} (l : list (option A)) : option (list A) :=
  fold_right (fun o acc =>
                match o, acc with
                | Some x, Some xs => Some (x :: xs)
                | _, _ => None
                end) (Some []) l.

(** [json.dumps(v)]; [None] where it raises [TypeError]. *)
Fixpoint dumps_text (v : pyval) : option (list ascii) :=
  match v with
  | PNone => Some (text "null")
  | PBool true => Some (text "true")
  | PBool false => Some (text "false")
  | PInt n => Some (show_int n)
  | PFloat S754_nan => Some (text "NaN")
  | PFloat (S754_infinity false) => Some (text "Infinity")
  | PFloat (S754_infinity true) => Some (text "-Infinity")
  | PFloat f => Some (float_repr f)
  | PStr s => Some (json_string s)
  | PBytes _ => None
  | PList l =>
      match all_some (map dumps_text l) with
      | Some parts => Some ("["%char :: join (text ", ") parts ++ ["]"%char])
      | None => None
      end
  | PDict d =>
      match all_some (map (fun kv =>
                             match dumps_text (snd kv) with
                             | Some t => Some (json_string (fst kv) ++ text ": " ++ t)
                             | None => None
                             end) d) with
      | Some parts => Some ("{"%char :: join (text ", ") parts ++ ["}"%char])
      | None => None
      end
  end.

Definition dumps (v : pyval) : exn + bytes :=
  match dumps_text v with
  | Some t => inr (of_chars t)
  | None => inl (TypeError v)
  end.

Definition has_char (c : Z) (s : list ascii) : bool :=
  existsb (fun x => code x =? c) s.

(** One character inside the [repr] of a [str] or [bytes] quoted by [q]. *)
Definition repr_char (q : Z) (c : ascii) : list ascii :=
  let n := code c in
  if n =? 92 then [chr 92; chr 92]
  else if n =? q then [chr 92; c]
  else if n =? 10 then text "\n"
  else if n =? 13 then text "\r"
  else if n =? 9 then text "\t"
  else if (n <? 32) || (n =? 127) then text "\x" ++ [hex_digit (n / 16); hex_digit (n mod 16)]
  else [c].

Definition quoted (s : list ascii) : list ascii :=
  let q := if has_char 39 s && negb (has_char 34 s) then 34 else 39 in
  chr q :: flat_map (repr_char q) s ++ [chr q].

Definition str_repr (s : string) : list ascii := quoted (text s).

(** [repr(v)], which is also [str(v)] when [v] is not a [str]. *)
Fixpoint repr (v : pyval) : list ascii :=
  match v with
  | PNone => text "None"
  | PBool true => text "True"
  | PBool false => text "False"
  | PInt n => show_int n
  | PFloat f => float_repr f
  | PStr s => str_repr s
  | PBytes b => "b"%char :: quoted (to_chars b)
  | PList l => "["%char :: join (text ", ") (map repr l) ++ ["]"%char]
  | PDict d =>
      "{"%char
      :: join (text ", ") (map (fun kv => str_repr (fst kv) ++ text ": " ++ repr (snd kv)) d)
      ++ ["}"%char]
  end.

Definition type_name (v : pyval) : string :=
  match v with
  | PNone => "NoneType"
  | PBool _ => "bool"
  | PInt _ => "int"
  | PFloat _ => "float"
  | PStr _ => "str"
  | PBytes _ => "bytes"
  | PList _ => "list"
  | PDict _ => "dict"
  end.

(** [str(e)].  The storage directory is the default one, [server_files]. *)
Definition exn_message (e : exn) : string :=
  match e with
  | JSONDecodeError => "Expecting value"
  | UnicodeDecodeError => "'utf-8' codec can't decode bytes"
  | RecursionError => "maximum recursion depth exceeded"
  | ValueError => "invalid value"
  | AttributeError => "object has no attribute 'get'"
  | TypeError v => "expected str, bytes or os.PathLike object, not " +:+ type_name v
  | KeyError k => string_of_list_ascii (str_repr k)
  | OverflowError => "int too big to convert"
  | FileNotFoundError p =>
      "[Errno 2] No such file or directory: "
      +:+ string_of_list_ascii (str_repr ("server_files/" +:+ p))
  | IsADirectoryError p =>
      "[Errno 21] Is a directory: "
      +:+ string_of_list_ascii (str_repr ("server_files/" +:+ p))
  end.

(** *** Timestamps *)

Definition two_digits (n : Z) : list ascii := [digit_char (n / 10); digit_char (n mod 10)].

Definition four_digits (n : Z) : list ascii :=
  [digit_char (n / 1000); digit_char (n / 100 mod 10);
   digit_char (n / 10 mod 10); digit_char (n mod 10)].

(** Year, month and day of a day number counted from 1970-01-01. *)
Definition civil_from_days (days : Z) : Z * Z * Z :=
  let z := days + 719468 in
  let era := z / 146097 in
  let doe := z - era * 146097 in
  let yoe := (doe - doe / 1460 + doe / 36524 - doe / 146096) / 365 in
  let doy := doe - (365 * yoe + yoe / 4 - yoe / 100) in
  let mp := (5 * doy + 2) / 153 in
  let d := doy - (153 * mp + 2) / 5 + 1 in
  let m := if mp <? 10 then mp + 3 else mp - 9 in
  let y := yoe + era * 400 + (if m <=? 2 then 1 else 0) in
  (y, m, d).

(** [strftime('%Y-%m-%d %H:%M:%S')] of a time in seconds, in UTC. *)
Definition format_time (t : Z) : string :=
  let '(y, m, d) := civil_from_days (t / 86400) in
  let s := t mod 86400 in
  string_of_list_ascii
    (four_digits y ++ "-"%char :: two_digits m ++ "-"%char :: two_digits d
     ++ " "%char :: two_digits (s / 3600) ++ ":"%char :: two_digits (s / 60 mod 60)
     ++ ":"%char :: two_digits (s mod 60)).

#[export] Instance runtime : Runtime := {
  json_loads := loads;
  json_dumps := dumps;
  py_str v := string_of_list_ascii (repr v);
  exn_str := exn_message;
  strftime := format_time
}.

(** Text with [']  standing for the double quote, as bytes: a way to
    write JSON examples. *)
Definition json_bytes (s : string) : bytes :=
  of_chars (map (fun c => if code c =? 39 then chr 34 else c) (text s)).

End Reference.

(** ** Sample worlds and requests *)

Module Sample.

Definition ascii_bytes (s : string) : bytes := list_byte_of_string s.

Definition hello : bytes := ascii_bytes "hello".

(** A fresh connection on an empty storage directory. *)
Definition fresh : world := World ∅ 0 [] [] [] false.

(** A storage directory holding [a.txt] with some earlier content. *)
Definition with_old_file : world :=
  World {["a.txt" := RegularFile (ascii_bytes "previous content") 1700000000]}
        1762198620 [] [] [] false.

(** A storage directory holding [a.txt] with content [hello]. *)
Definition with_file : world :=
  World {["a.txt" := RegularFile hello 1762198620]} 1762198620 [] [] [] false.

(** A storage directory holding a sub-directory [docs]. *)
Definition with_directory : world :=
  World {["docs" := Directory 4096 1700000000]} 1762198620 [] [] [] false.

(** A connection on which the peer sent the given segments. *)
Definition receiving (segments : list bytes) (w : world) : world :=
  set_inbound segments w.

Definition list_request : bytes := Reference.json_bytes "{'command': 'LIST'}".
Definition quit_request : bytes := Reference.json_bytes "{'command': 'QUIT'}".
Definition upload_request : bytes :=
  Reference.json_bytes "{'command': 'UPLOAD', 'filename': 'a.txt'}".
Definition download_request : bytes :=
  Reference.json_bytes "{'command': 'DOWNLOAD', 'filename': 'a.txt'}".
Definition delete_request : bytes :=
  Reference.json_bytes "{'command': 'DELETE', 'filename': 'a.txt'}".


(** A control frame as the client sends it, in two segments. *)
Definition framed (body : bytes) : list bytes := [be_digits 4 (len body); body].

(** An upload of five bytes on the stream, and one cut after two bytes. *)
Definition upload_whole : world := receiving [be_digits 8 5; hello] fresh.
Definition upload_cut_short : world := receiving [be_digits 8 5; ascii_bytes "he"] fresh.

(** Responses of the sample sessions. *)
Definition stored_hello : pyval :=
  PDict [("status", PStr "success");
         ("message", PStr "File a.txt stored successfully");
         ("size", PInt 5)].
Definition not_found : pyval := FileServer.error_response "File a.txt not found".

End Sample.

(** ** The client: receiving, and the commands of class [FileClient]

    As before the client's [world] holds its own files, keyed by the path
    given to [open], and its end of the connection; [connected] is the
    socket not being closed.  The [print] calls, which are all these
    methods report, are omitted: what remains is what they send, read and
    write. *)

(** [os.path.basename(path)]: what follows the last slash. *)
Fixpoint basename_chars (path current : list ascii) : list ascii :=
  match path with
  | [] => current
  | c :: rest =>
      if Ascii.eqb c "/" then basename_chars rest []
      else basename_chars rest (current ++ [c])
  end.

Definition os_path_basename (path : string) : string :=
  string_of_list_ascii (basename_chars (list_ascii_of_string path) []).

(** [f.write(chunk)] on a file opened for writing: the bytes go after what
    the file already holds. *)
Definition append_file (filepath : string) (chunk : bytes) : M unit :=
  fun w =>
    match storage w !! filepath with
    | Some (RegularFile content _) =>
        (Returned tt,
         set_storage (<[filepath := RegularFile (content ++ chunk) (clock w)]> (storage w)) w)
    | Some (Directory _ _) => (Raised (IsADirectoryError filepath), w)
    | None => (Raised (FileNotFoundError filepath), w)
    end.

Module FileClientSession.
Section WithRuntime.
Context `{Runtime}.

(** [receive_response] (lines 56-74).  Python's [None] is [PNone]. *)
Definition receive_response : M pyval :=
  try_except
    (length_bytes <- recv 4 ;;
     if negb (len length_bytes =? 4) then ret PNone
     else
       let response_length := int_from_bytes length_bytes in
       response_data <- recv response_length ;;
       match response_data with
       | [] => ret PNone
       | _ => lift (json_loads response_data)
       end)
    (fun e => ret PNone).

(** The [while received < file_size] loop of [receive_file_data], inside
    [with open(filepath, 'wb') as f]. *)
Fixpoint receive_to_file (fuel : nat) (filepath : string) (file_size received : Z)
  : M Z :=
  if received <? file_size then
    match fuel with
    | O => out_of_fuel
    | S fuel' =>
        chunk <- recv (Z.min 4096 (file_size - received)) ;;
        match chunk with
        | [] => ret received
        | _ =>
            append_file filepath chunk ;;;
            receive_to_file fuel' filepath file_size (received + len chunk)
        end
    end
  else ret received.

(** [receive_file_data] (lines 97-120). *)
Definition receive_file_data (filepath : string) : M bool :=
  try_except
    (size_bytes <- recv 8 ;;
     if negb (len size_bytes =? 8) then ret false
     else
       let file_size := int_from_bytes size_bytes in
       write_file filepath [] ;;;
       received <- with_fuel (fun fuel => receive_to_file fuel filepath file_size 0) ;;
       ret (received =? file_size))
    (fun e => ret false).

(** [response and response.get('status') == 'success']. *)
Definition is_success (response : pyval) : M bool :=
  if truthy response then
    status <- py_get response "status" PNone ;;
    ret (eq_str status "success")
  else ret false.

(** What follows an unsuccessful answer:
    [print(... response.get('message', 'Unknown error') ...)], which raises
    when the response is not a map. *)
Definition report_failure (response : pyval) : M unit :=
  py_get response "message" (PStr "Unknown error") ;;; ret tt.

(** [format_file_size(size)] (lines 225-237) as far as it matters to its
    callers, which only print its text: the exceptions it raises.  A size
    that is not a number fails in [size_bytes >= 1024]; an integer fails
    when its division by 1024, or its conversion for the format [.1f], does
    not fit a float. *)
Definition format_file_size_check (size : pyval) : M unit :=
  match size with
  | PInt n =>
      if n =? 0 then ret tt
      else
        match (if 1024 <=? n
               then binary_round 53 1024 false (Z.to_pos n) (-10)
               else binary_round 53 1024 (n <? 0) (Z.to_pos (Z.abs n)) 0) with
        | S754_infinity _ => raise OverflowError
        | _ => ret tt
        end
  | PBool _ | PFloat _ => ret tt
  | _ => raise (TypeError size)
  end.

(** [list_files] (lines 122-147).  The table printed for a successful
    answer is omitted. *)
Definition list_files : M unit :=
  try_except
    (FileClient.send_request (PDict [("command", PStr "LIST")]) ;;;
     response <- receive_response ;;
     ok <- is_success response ;;
     if ok : bool then ret tt else report_failure response)
    (fun e => ret tt).

(** [upload_file] (lines 149-177). *)
Definition upload_file (filepath : string) : M unit :=
  try_except
    (present <- os_path_exists filepath ;;
     if negb present then ret tt
     else
       let filename := os_path_basename filepath in
       file_size <- os_stat filepath ;;
       format_file_size_check (PInt (fst file_size)) ;;;
       FileClient.send_request
         (PDict [("command", PStr "UPLOAD"); ("filename", PStr filename)]) ;;;
       sent_all <- FileClient.send_file_data filepath ;;
       if sent_all : bool then
         response <- receive_response ;;
         ok <- is_success response ;;
         if ok : bool then ret tt else report_failure response
       else ret tt)
    (fun e => ret tt).

(** [download_file] (lines 179-206); [save_path] is [None] or a path. *)
Definition download_file (filename : string) (save_path : option string) : M unit :=
  try_except
    (let save_path := match save_path with
                      | None => filename
                      | Some path => path
                      end in
     FileClient.send_request
       (PDict [("command", PStr "DOWNLOAD"); ("filename", PStr filename)]) ;;;
     response <- receive_response ;;
     ok <- is_success response ;;
     if ok : bool then
       file_size <- py_get response "size" (PInt 0) ;;
       format_file_size_check file_size ;;;
       receive_file_data save_path ;;;
       ret tt
     else report_failure response)
    (fun e => ret tt).

(** [delete_file] (lines 208-223). *)
Definition delete_file (filename : string) : M unit :=
  try_except
    (FileClient.send_request
       (PDict [("command", PStr "DELETE"); ("filename", PStr filename)]) ;;;
     response <- receive_response ;;
     ok <- is_success response ;;
     if ok : bool then ret tt else report_failure response)
    (fun e => ret tt).


End WithRuntime.
End FileClientSession.






(** ** Sample worlds of the client *)

Module ClientSample.

(** The JSON text of a value, as the reference runtime writes it. *)
Definition encoded (v : pyval) : bytes :=
  match json_dumps (Runtime:=Reference.runtime) v with
  | inr body => body
  | inl _ => []
  end.

(** A client whose directory [docs] holds [a.txt] with content [hello]. *)
Definition with_local_file : world :=
  World {["docs" := Directory 4096 1700000000;
          "docs/a.txt" := RegularFile Sample.hello 1700000000]}
        1762198620 [] [] [] false.

Definition upload_a : pyval :=
  PDict [("command", PStr "UPLOAD"); ("filename", PStr "a.txt")].
Definition upload_docs : pyval :=
  PDict [("command", PStr "UPLOAD"); ("filename", PStr "docs")].
Definition download_a : pyval :=
  PDict [("command", PStr "DOWNLOAD"); ("filename", PStr "a.txt")].

(** The server's answer [File a.txt not found], framed. *)
Definition not_found_frame : list bytes := Sample.framed (encoded Sample.not_found).

End ClientSample.

(** * Properties *)

(** ** Big-endian integers *)


Lemma byte_to_Z_of_Z (z : Z) : byte_to_Z (byte_of_Z z) = z mod 256.
Proof.
  unfold byte_to_Z, byte_of_Z.
  pose proof (Z.mod_pos_bound z 256 ltac:(lia)) as Hm.
  destruct (Byte.of_N (Z.to_N (z mod 256))) as [b|] eqn:Hb.
  - apply Byte.to_of_N in Hb. rewrite Hb. lia.
  - apply Byte.of_N_None_iff in Hb. lia.
Qed.

Lemma int_from_bytes_snoc (bs : bytes) (b : byte) :
  int_from_bytes (bs ++ [b]) = int_from_bytes bs * 256 + byte_to_Z b.
Proof. unfold int_from_bytes. now rewrite fold_left_app. Qed.

Lemma length_be_digits (n : nat) (v : Z) : length (be_digits n v) = n.
Proof.
  revert v. induction n as [|n IH]; intros v; simpl; [reflexivity|].
  rewrite length_app, IH. simpl. lia.
Qed.

Lemma int_from_bytes_be_digits (n : nat) (v : Z) :
  int_from_bytes (be_digits n v) = v mod 256 ^ Z.of_nat n.
Proof.
  revert v. induction n as [|n IH]; intros v.
  - simpl. now rewrite Z.mod_1_r.
  - cbn [be_digits]. rewrite int_from_bytes_snoc, IH, byte_to_Z_of_Z.
    rewrite Nat2Z.inj_succ, Z.pow_succ_r by lia.
    rewrite Z.rem_mul_r by lia. lia.
Qed.

(** A value that fits is read back unchanged. *)
Lemma int_from_bytes_fits (n : nat) (v : Z) :
  0 <= v < 256 ^ Z.of_nat n -> int_from_bytes (be_digits n v) = v.
Proof.
  intros Hv. rewrite int_from_bytes_be_digits. now apply Z.mod_small.
Qed.

(** ** Chunks *)

Lemma concat_chunks {A} (c : nat) (data : list A) (n : nat) :
  concat (map (fun k => take c (drop (k * c) data)) (seq 0 n))
  = take (n * c) data.
Proof.
  induction n as [|n IH]; [reflexivity|].
  rewrite seq_S, map_app, concat_app, IH. cbn [map concat Nat.add].
  rewrite app_nil_r, take_take_drop. f_equal. lia.
Qed.

Lemma slice_range {A} (data : list A) (c : Z) (k : nat) :
  0 < c ->
  slice data (0 + Z.of_nat k * c) (0 + Z.of_nat k * c + c)
  = take (Z.to_nat c) (drop (k * Z.to_nat c) data).
Proof.
  intros Hc. unfold slice. f_equal; [f_equal; lia|f_equal; nia].
Qed.

(** The chunks cut by the sending loop, put end to end, are the data. *)
Lemma concat_slices {A} (data : list A) (c : Z) :
  0 < c ->
  concat (map (fun i => slice data i (i + c)) (py_range 0 (len data) c)) = data.
Proof.
  intros Hc. unfold py_range. rewrite map_map.
  erewrite map_ext; [|intros k; apply slice_range, Hc].
  rewrite concat_chunks. apply take_ge.
  unfold len.
  set (n := Z.to_nat ((Z.of_nat (length data) - 0 + c - 1) / c)).
  assert (Hn : Z.of_nat (length data) <= Z.of_nat n * c).
  { unfold n. rewrite Z2Nat.id by (apply Z.div_pos; lia).
    pose proof (Z.mul_div_le (Z.of_nat (length data) - 0 + c - 1) c Hc) as H1.
    pose proof (Z.mod_pos_bound (Z.of_nat (length data) - 0 + c - 1) c Hc) as H2.
    pose proof (Z.div_mod (Z.of_nat (length data) - 0 + c - 1) c ltac:(lia)) as H3.
    nia. }
  nia.
Qed.

(** ** The socket *)

Lemma recv_from_spec (n : nat) (segs : list bytes) (chunk : bytes) (rest : list bytes) :
  recv_from n segs = (chunk, rest) ->
  chunk = take (length chunk) (concat segs)
  /\ concat rest = drop (length chunk) (concat segs)
  /\ (length chunk <= n)%nat
  /\ (chunk = [] -> n = 0%nat \/ concat segs = []).
Proof.
  revert chunk rest. induction segs as [|seg segs IH]; intros chunk rest Hrecv.
  - injection Hrecv as <- <-. cbn. repeat split; [lia|auto].
  - destruct seg as [|b seg].
    + cbn in Hrecv |- *. now apply IH.
    + cbn [recv_from] in Hrecv. injection Hrecv as <- <-.
      assert (Hpos : (0 < length (b :: seg))%nat) by (cbn; lia).
      remember (b :: seg) as s eqn:Hs. cbn [concat].
      assert (Hlen : length (take n s) = Nat.min n (length s)) by apply length_take.
      destruct (Nat.le_gt_cases (length s) n) as [Hle|Hgt].
      * rewrite (take_ge s n Hle), (drop_ge s n Hle).
        rewrite take_app_length, drop_app_length.
        repeat split; [lia|]. intros ->. cbn in Hpos. lia.
      * rewrite Hlen, Nat.min_l by lia.
        rewrite take_app_le, drop_app_le by lia.
        destruct (drop n s) as [|d ds] eqn:Hdrop.
        { apply (f_equal length) in Hdrop. rewrite length_drop in Hdrop.
          change (length (@nil byte)) with 0%nat in Hdrop. lia. }
        cbn [concat]. repeat split.
        -- lia.
        -- intros Hnil. left. apply (f_equal length) in Hnil.
           rewrite Hlen in Hnil. change (length (@nil byte)) with 0%nat in Hnil. lia.
Qed.

(** What one [recv] does to the world: only the input queue moves. *)
Lemma recv_spec (bufsize : Z) (w : world) :
  exists chunk rest,
    recv bufsize w = (Returned chunk, set_inbound rest w)
    /\ chunk = take (length chunk) (concat (inbound w))
    /\ concat rest = drop (length chunk) (concat (inbound w))
    /\ (length chunk <= Z.to_nat bufsize)%nat
    /\ (chunk = [] -> bufsize <= 0 \/ pending w = 0%nat).
Proof.
  unfold recv. destruct (recv_from (Z.to_nat bufsize) (inbound w)) as [chunk rest] eqn:Hr.
  exists chunk, rest. apply recv_from_spec in Hr as (H1 & H2 & H3 & H4).
  repeat split; try assumption.
  intros Hnil. destruct (H4 Hnil) as [Hz|Hc]; [left; lia|right].
  unfold pending. now rewrite Hc.
Qed.

Lemma pending_set_inbound (rest : list bytes) (w : world) :
  pending (set_inbound rest w) = length (concat rest).
Proof. reflexivity. Qed.

(** A [recv] takes its bytes off the stream. *)
Lemma recv_pending (bufsize : Z) (w w' : world) (chunk : bytes) :
  recv bufsize w = (Returned chunk, w') ->
  (length chunk <= pending w)%nat /\ pending w' = (pending w - length chunk)%nat.
Proof.
  destruct (recv_spec bufsize w) as (c & rest & Hrecv & Hchunk & Hrest & _ & _).
  rewrite Hrecv. intros [= <- <-].
  rewrite pending_set_inbound, Hrest, length_drop. unfold pending.
  apply (f_equal length) in Hchunk. rewrite length_take in Hchunk. lia.
Qed.

(** ** Receiving a raw payload *)

Section Receive.
Context `{Runtime}.

(** The receiving loop gathers the missing bytes from the front of the
    stream, however the stream is cut into segments, and stops early only at
    the end of the stream. *)
Lemma receive_loop_spec (fuel : nat) (file_size : Z) (file_data : bytes) (w : world) :
  (pending w < fuel)%nat ->
  let k := Z.to_nat (file_size - len file_data) in
  exists rest,
    FileServer.receive_loop fuel file_size file_data w
    = (Returned (file_data ++ take k (concat (inbound w))), set_inbound rest w)
    /\ concat rest = drop k (concat (inbound w)).
Proof.
  revert file_data w.
  induction fuel as [|fuel IH]; intros file_data w Hfuel k; [lia|].
  cbn [FileServer.receive_loop].
  destruct (len file_data <? file_size) eqn:Hlt.
  - apply Z.ltb_lt in Hlt.
    destruct (recv_spec (Z.min 4096 (file_size - len file_data)) w)
      as (chunk & rest & Hrecv & Hchunk & Hrest & Hle & Hnil).
    unfold bind at 1. rewrite Hrecv.
    destruct chunk as [|b chunk].
    + destruct (Hnil eq_refl) as [Hz|Hp]; [lia|].
      exists rest. unfold pending in Hp. apply length_zero_iff_nil in Hp.
      rewrite Hp in Hrest |- *. rewrite take_nil, app_nil_r.
      rewrite drop_nil in Hrest |- *. now split.
    + set (c := b :: chunk) in *.
      assert (Hc : (0 < length c <= length (concat (inbound w)))%nat).
      { split; [subst c; cbn; lia|].
        apply (f_equal length) in Hchunk. rewrite length_take in Hchunk. lia. }
      assert (Hpend : (pending (set_inbound rest w) < fuel)%nat).
      { rewrite pending_set_inbound, Hrest, length_drop.
        unfold pending in Hfuel. lia. }
      destruct (IH (file_data ++ c) (set_inbound rest w) Hpend) as (rest' & Hloop & Hrest').
      exists rest'. rewrite Hloop. cbn [inbound set_inbound] in *.
      assert (Hk : (Z.to_nat (file_size - len (file_data ++ c)) = k - length c)%nat).
      { subst k. unfold len. rewrite length_app.
        generalize (length c), (length file_data). clear. intros. lia. }
      rewrite Hk in *. split.
      * assert (Heq : c ++ take (k - length c) (concat rest)
                      = take k (concat (inbound w))).
        { rewrite Hrest.
          transitivity (take (length c) (concat (inbound w))
                        ++ take (k - length c) (drop (length c) (concat (inbound w)))).
          { now rewrite <- Hchunk. }
          rewrite take_take_drop. f_equal.
          clearbody c. subst k. unfold len in *. lia. }
        rewrite <- app_assoc, Heq. reflexivity.
      * rewrite Hrest', Hrest, drop_drop. f_equal.
        clearbody c. subst k. unfold len in *. lia.
  - apply Z.ltb_ge in Hlt. exists (inbound w).
    assert (Hk : k = 0%nat) by (subst k; lia). rewrite Hk.
    rewrite take_0, app_nil_r, drop_0. split; [|reflexivity].
    now destruct w.
Qed.

(** [receive_file_data] when the eight bytes of the size arrive together. *)
Lemma receive_file_data_spec (w w1 : world) (size_bytes : bytes) :
  recv 8 w = (Returned size_bytes, w1) ->
  length size_bytes = 8%nat ->
  let n := Z.to_nat (int_from_bytes size_bytes) in
  exists rest,
    FileServer.receive_file_data w
    = (Returned (Some (take n (concat (inbound w1)))), set_inbound rest w1)
    /\ concat rest = drop n (concat (inbound w1)).
Proof.
  intros Hrecv Hlen n. unfold FileServer.receive_file_data, try_except.
  unfold bind at 1. rewrite Hrecv.
  unfold len at 1. rewrite Hlen.
  change (negb (Z.of_nat 8 =? 8)) with false. cbv iota.
  unfold bind, with_fuel.
  destruct (receive_loop_spec (S (pending w1)) (int_from_bytes size_bytes) [] w1
              ltac:(lia)) as (rest & Hloop & Hrest).
  rewrite Hloop. change (len (@nil byte)) with 0 in *.
  rewrite Z.sub_0_r in *. exists rest. split; [reflexivity|assumption].
Qed.

(** [receive_file_data] when the first [recv] brings fewer than eight bytes. *)
Lemma receive_file_data_short (w w1 : world) (size_bytes : bytes) :
  recv 8 w = (Returned size_bytes, w1) ->
  length size_bytes <> 8%nat ->
  FileServer.receive_file_data w = (Returned None, w1).
Proof.
  intros Hrecv Hlen. unfold FileServer.receive_file_data, try_except.
  unfold bind at 1. rewrite Hrecv.
  destruct (len size_bytes =? 8) eqn:Heq; [|reflexivity].
  apply Z.eqb_eq in Heq. unfold len in Heq. lia.
Qed.

End Receive.

(** ** Sending *)

Lemma len_nonneg {A} (l : list A) : 0 <= len l.
Proof. unfold len. lia. Qed.

Lemma for_each_send {A} (f : A -> bytes) (xs : list A) (w : world) :
  for_each xs (fun x => send (f x)) w
  = (Returned tt, set_outbound (outbound w ++ map f xs) w).
Proof.
  revert w. induction xs as [|x xs IH]; intros w.
  - cbn. rewrite app_nil_r. now destruct w.
  - cbn [for_each map]. unfold bind at 1, send at 1. rewrite IH.
    cbn. now rewrite <- app_assoc.
Qed.

Section Sending.
Context `{Runtime}.

(** [send_response] writes the control frame of the response, records the
    call, and touches nothing else; it never raises. *)
Lemma send_response_eq (response : pyval) (w : world) :
  FileServer.send_response response w
  = (Returned tt, sent (control_frame response) (Respond response) w).
Proof.
  unfold FileServer.send_response, control_frame, sent, try_except, bind, note, lift.
  cbn [set_history history storage clock inbound outbound closed].
  destruct (json_dumps response) as [e|body]; cbn.
  - now rewrite app_nil_r.
  - unfold to_bytes.
    destruct (Z.leb_spec 0 (len body)) as [_|Hneg];
      [|pose proof (len_nonneg body); lia].
    change (256 ^ Z.of_nat 4) with (256 ^ 4).
    destruct (len body <? 256 ^ 4); cbn.
    + now rewrite <- app_assoc.
    + now rewrite app_nil_r.
Qed.

(** [send_file_data] writes the payload frame of the data, records the call,
    and touches nothing else; it never raises. *)
Lemma send_file_data_eq (file_data : bytes) (w : world) :
  FileServer.send_file_data file_data w
  = (Returned tt, sent (payload_frame file_data) (Payload file_data) w).
Proof.
  unfold FileServer.send_file_data, payload_frame, sent, try_except, note.
  unfold bind at 1. cbn [set_history history storage clock inbound outbound closed].
  unfold to_bytes.
  destruct (Z.leb_spec 0 (len file_data)) as [_|Hneg];
    [|pose proof (len_nonneg file_data); lia].
  change (256 ^ Z.of_nat 8) with (256 ^ 8).
  destruct (len file_data <? 256 ^ 8); cbn [andb].
  - unfold bind at 1, ret at 1. unfold bind at 1, send at 1.
    rewrite for_each_send. cbn. now rewrite <- app_assoc.
  - cbn. now rewrite app_nil_r.
Qed.

End Sending.

(** ** The file store *)

Ltac by_lookup w name :=
  destruct (storage w !! name) as [[? ?|? ?]|] eqn:Hlookup;
  cbn; rewrite ?Hlookup; cbn; try discriminate; try reflexivity.

Section Store.
Context `{Runtime}.

Lemma store_file_ok (name : string) (file_data : bytes) (w : world) :
  is_directory (storage w) name = false ->
  FileServer.store_file (PStr name) file_data w
  = (Returned (PDict [("status", PStr "success");
                      ("message", PStr ("File " +:+ name +:+ " stored successfully"));
                      ("size", PInt (len file_data))]),
     set_storage (<[name := RegularFile file_data (clock w)]> (storage w)) w).
Proof.
  unfold is_directory, FileServer.store_file, try_except, bind, os_path_join, ret, write_file.
  intros Hdir. by_lookup w name.
Qed.

Lemma store_file_directory (name : string) (file_data : bytes) (w : world) :
  is_directory (storage w) name = true ->
  FileServer.store_file (PStr name) file_data w
  = (Returned (FileServer.error_response (exn_str (IsADirectoryError name))), w).
Proof.
  unfold is_directory, FileServer.store_file, try_except, bind, os_path_join, ret, write_file.
  intros Hdir. by_lookup w name.
Qed.

Lemma get_file_ok (name : string) (content : bytes) (w : world) :
  file_content (storage w) name = Some content ->
  FileServer.get_file (PStr name) w
  = (Returned (PDict [("status", PStr "success");
                      ("data", PBytes content);
                      ("size", PInt (len content))]), w).
Proof.
  unfold file_content, FileServer.get_file, try_except, bind, os_path_join, ret,
    os_path_exists, read_file.
  intros Hc. by_lookup w name. now injection Hc as ->.
Qed.

Lemma get_file_absent (name : string) (w : world) :
  storage w !! name = None ->
  FileServer.get_file (PStr name) w
  = (Returned (FileServer.error_response ("File " +:+ name +:+ " not found")), w).
Proof.
  unfold FileServer.get_file, try_except, bind, os_path_join, ret, os_path_exists.
  now intros ->.
Qed.

Lemma get_file_directory (name : string) (w : world) :
  is_directory (storage w) name = true ->
  FileServer.get_file (PStr name) w
  = (Returned (FileServer.error_response (exn_str (IsADirectoryError name))), w).
Proof.
  unfold is_directory, FileServer.get_file, try_except, bind, os_path_join, ret,
    os_path_exists, read_file.
  intros Hd. by_lookup w name.
Qed.

Lemma delete_file_absent (name : string) (w : world) :
  storage w !! name = None ->
  FileServer.delete_file (PStr name) w
  = (Returned (FileServer.error_response ("File " +:+ name +:+ " not found")), w).
Proof.
  unfold FileServer.delete_file, try_except, bind, os_path_join, ret, os_path_exists.
  now intros ->.
Qed.

Lemma delete_file_ok (name : string) (content : bytes) (w : world) :
  file_content (storage w) name = Some content ->
  FileServer.delete_file (PStr name) w
  = (Returned (PDict [("status", PStr "success");
                      ("message", PStr ("File " +:+ name +:+ " deleted successfully"))]),
     set_storage (delete name (storage w)) w).
Proof.
  unfold file_content, FileServer.delete_file, try_except, bind, os_path_join, ret,
    os_path_exists, os_remove.
  intros Hc. by_lookup w name.
Qed.

Lemma delete_file_directory (name : string) (w : world) :
  is_directory (storage w) name = true ->
  FileServer.delete_file (PStr name) w
  = (Returned (FileServer.error_response (exn_str (IsADirectoryError name))), w).
Proof.
  unfold is_directory, FileServer.delete_file, try_except, bind, os_path_join, ret,
    os_path_exists, os_remove.
  intros Hd. by_lookup w name.
Qed.

(** A file-store routine given anything but a [str] fails in
    [os.path.join] and reports the exception. *)
Lemma store_ops_not_str (filename : pyval) (file_data : bytes) (w : world) :
  (forall s, filename <> PStr s) ->
  FileServer.store_file filename file_data w
  = (Returned (FileServer.error_response (exn_str (TypeError filename))), w)
  /\ FileServer.get_file filename w
     = (Returned (FileServer.error_response (exn_str (TypeError filename))), w)
  /\ FileServer.delete_file filename w
     = (Returned (FileServer.error_response (exn_str (TypeError filename))), w).
Proof.
  intros Hns.
  unfold FileServer.store_file, FileServer.get_file, FileServer.delete_file,
    try_except, bind, os_path_join.
  destruct filename; try (now repeat split). now destruct (Hns s).
Qed.

End Store.


(** ** The dispatch loop *)

Section Loop.
Context `{Runtime}.

Lemma serve_once_reads (w0 w : world) (request_data : bytes) :
  reads_request w0 request_data w ->
  FileServer.serve_once w0 = FileServer.handle_request request_data w.
Proof.
  intros (length_bytes & w' & Hlen & Hne & Hdata & Hne').
  unfold FileServer.serve_once. unfold bind at 1. rewrite Hlen.
  destruct length_bytes as [|b bs]; [congruence|].
  unfold bind at 1. rewrite Hdata.
  destruct request_data; [congruence|reflexivity].
Qed.



Lemma handle_client_unfold (w : world) :
  FileServer.handle_client w = handle_client_for (S (pending w)) w.
Proof. reflexivity. Qed.

End Loop.

Lemma eq_str_other (v : pyval) (t : string) : v <> PStr t -> eq_str v t = false.
Proof.
  destruct v; try reflexivity. cbn. intros Hne.
  apply String.eqb_neq. congruence.
Qed.

Ltac enter_request Hloads :=
  unfold FileServer.handle_request, try_except; unfold bind at 1;
  rewrite Hloads; cbn [lift ret]; unfold bind at 1; cbn [py_get ret].




Section Download.
Context `{Runtime}.

(** [get_file] never raises and leaves the world alone; it answers with the
    content of a regular file and with an error response otherwise. *)
Lemma get_file_cases (filename : pyval) (w : world) :
  (exists name content,
      filename = PStr name
      /\ file_content (storage w) name = Some content
      /\ FileServer.get_file filename w
         = (Returned (PDict [("status", PStr "success");
                             ("data", PBytes content);
                             ("size", PInt (len content))]), w))
  \/ (exists message,
         (forall name, filename = PStr name -> file_content (storage w) name = None)
         /\ FileServer.get_file filename w
            = (Returned (FileServer.error_response message), w)).
Proof.
  assert (Hstr : (exists s, filename = PStr s) \/ (forall s, filename <> PStr s))
    by (destruct filename; try (right; discriminate); left; eauto).
  destruct Hstr as [[name ->]|Hns].
  2:{ destruct (store_ops_not_str filename [] w Hns) as (_ & Hget & _).
      right. eexists. split; [|exact Hget]. intros name ->. now destruct (Hns name). }
  destruct (storage w !! name) as [[content m|s m]|] eqn:Hlookup.
  - left. exists name, content.
    assert (Hc : file_content (storage w) name = Some content)
      by (unfold file_content; now rewrite Hlookup).
    repeat split; [exact Hc|now apply get_file_ok].
  - right. eexists. split.
    + intros ? [= <-]. unfold file_content. now rewrite Hlookup.
    + apply get_file_directory. unfold is_directory. now rewrite Hlookup.
  - right. eexists. split.
    + intros ? [= <-]. unfold file_content. now rewrite Hlookup.
    + now apply get_file_absent.
Qed.

Lemma payload_frame_nonempty (file_data : bytes) :
  len file_data < 256 ^ 8 -> payload_frame file_data <> [].
Proof.
  intros Hfit. unfold payload_frame.
  destruct (Z.ltb_spec (len file_data) (256 ^ 8)); [discriminate|lia].
Qed.

End Download.

(** C2.  A DOWNLOAD request is answered by exactly one control response,
    and the raw payload frame follows it if and only if that response has
    status [success]: either the response is [{status: success, size: n}]
    for the regular file named by the request and the payload frame with the
    file's content is written right after it, or the response has status
    [error] (file absent, file name missing or empty, or any other failure
    of the read) and nothing is written after it.  Files are shorter than
    [2 ^ 64] bytes, so that their length fits the frame's prefix. *)
Theorem download_payload_iff_success `{Runtime} (request_data : bytes)
    (request : dict) (w : world) :
  json_loads request_data = inr (PDict request) ->
  command_of request = PStr "DOWNLOAD" ->
  sizes_fit (storage w) ->
  exists response,
    let w1 := sent (control_frame response) (Respond response) w in
    (status_of response = PStr "success"
     /\ exists name content,
          filename_of request = PStr name
          /\ file_content (storage w) name = Some content
          /\ response = PDict [("status", PStr "success"); ("size", PInt (len content))]
          /\ payload_frame content <> []
          /\ FileServer.handle_request request_data w
             = (Returned Continue, sent (payload_frame content) (Payload content) w1))
    \/ (status_of response = PStr "error"
        /\ FileServer.handle_request request_data w = (Returned Continue, w1)).
Proof.
  intros Hloads Hcmd Hfit.
  destruct (truthy (filename_of request)) eqn:Htruthy.
  - destruct (get_file_cases (filename_of request) w)
      as [(name & content & Hname & Hcontent & Hget) | (message & _ & Hget)].
    + exists (PDict [("status", PStr "success"); ("size", PInt (len content))]).
      left. split; [reflexivity|]. exists name, content.
      repeat split; try assumption.
      * now apply payload_frame_nonempty, (Hfit name).
      * enter_request Hloads. fold (command_of request). rewrite Hcmd.
        cbn [eq_str String.eqb Ascii.eqb Bool.eqb].
        unfold bind at 1; cbn [py_get ret].
        fold (filename_of request). rewrite Htruthy.
        unfold bind at 1. unfold bind at 1. rewrite Hget.
        cbn [py_item dict_lookup String.eqb Ascii.eqb Bool.eqb ret].
        unfold bind at 1. cbn [eq_str String.eqb Ascii.eqb Bool.eqb ret].
        unfold bind at 1. cbn [py_item dict_lookup String.eqb Ascii.eqb Bool.eqb ret].
        unfold bind at 1. rewrite send_response_eq.
        unfold bind at 1. cbn [py_item dict_lookup String.eqb Ascii.eqb Bool.eqb ret].
        rewrite send_file_data_eq. reflexivity.
    + exists (FileServer.error_response message). right. split; [reflexivity|].
      enter_request Hloads. fold (command_of request). rewrite Hcmd.
      cbn [eq_str String.eqb Ascii.eqb Bool.eqb].
      unfold bind at 1; cbn [py_get ret].
      fold (filename_of request). rewrite Htruthy.
      unfold bind at 1. unfold bind at 1. rewrite Hget.
      cbn [py_item dict_lookup String.eqb Ascii.eqb Bool.eqb ret FileServer.error_response].
      unfold bind at 1. cbn [eq_str String.eqb Ascii.eqb Bool.eqb ret].
      rewrite send_response_eq. reflexivity.
  - exists (FileServer.error_response "Filename not provided"). right.
    split; [reflexivity|].
    enter_request Hloads. fold (command_of request). rewrite Hcmd.
    cbn [eq_str String.eqb Ascii.eqb Bool.eqb].
    unfold bind at 1; cbn [py_get ret].
    fold (filename_of request). rewrite Htruthy.
    unfold bind at 1. rewrite send_response_eq. reflexivity.
Qed.

(** ** Listing *)

Section Listing.
Context `{Runtime}.

Lemma get_file_info_regular (name : string) (content : bytes) (mtime : Z) (w : world) :
  storage w !! name = Some (RegularFile content mtime) ->
  FileServer.get_file_info name w = (Returned (file_entry name content mtime), w).
Proof.
  intros Hlookup.
  unfold FileServer.get_file_info, bind, os_path_join, ret, os_path_exists, os_stat.
  rewrite Hlookup. cbn. now rewrite Hlookup.
Qed.

Lemma get_file_info_absent (name : string) (w : world) :
  storage w !! name = None ->
  FileServer.get_file_info name w
  = (Returned (PDict [("name", PStr name); ("exists", PBool false)]), w).
Proof.
  intros Hlookup.
  unfold FileServer.get_file_info, bind, os_path_join, ret, os_path_exists.
  now rewrite Hlookup.
Qed.

Lemma list_files_loop_eq (l : list (string * node)) (files : list pyval) (w : world) :
  (forall name nd, (name, nd) ∈ l -> storage w !! name = Some nd) ->
  FileServer.list_files_loop (map fst l) files w
  = (Returned (files ++ entries_of l), w).
Proof.
  revert files. induction l as [|[name nd] l IH]; intros files Hin.
  - cbn. now rewrite app_nil_r.
  - assert (Hhead : storage w !! name = Some nd) by (apply Hin; left).
    assert (Htail : forall n x, (n, x) ∈ l -> storage w !! n = Some x)
      by (intros n x Hnx; apply Hin; now right).
    cbn [map fst FileServer.list_files_loop].
    unfold bind at 1, os_path_join at 1, ret at 1.
    unfold bind at 1, os_path_isfile at 1. rewrite Hhead.
    destruct nd as [content mtime|st_size mtime].
    + unfold bind at 1. rewrite (get_file_info_regular _ _ _ _ Hhead).
      rewrite IH by exact Htail. cbn. now rewrite <- app_assoc.
    + rewrite IH by exact Htail. reflexivity.
Qed.

(** [list_files] succeeds with the entries of the regular files, in the
    order of the directory, and changes nothing. *)
Lemma list_files_eq (w : world) :
  FileServer.list_files w
  = (Returned (PDict [("status", PStr "success");
                      ("files", PList (entries_of (map_to_list (storage w))))]), w).
Proof.
  unfold FileServer.list_files, try_except. unfold bind at 1, os_listdir at 1.
  unfold bind at 1. rewrite list_files_loop_eq; [reflexivity|].
  intros name nd Hin. now apply elem_of_map_to_list.
Qed.

Lemma elem_of_entries_of (entry : pyval) (l : list (string * node)) :
  entry ∈ entries_of l <->
  exists name content mtime,
    (name, RegularFile content mtime) ∈ l /\ entry = file_entry name content mtime.
Proof.
  unfold entries_of. rewrite list_elem_of_In, in_flat_map. split.
  - intros ([name nd] & Hin & Hentry). cbn in Hentry.
    destruct nd as [content mtime|]; [|now destruct Hentry].
    destruct Hentry as [<-|[]]. exists name, content, mtime.
    split; [now apply list_elem_of_In|reflexivity].
  - intros (name & content & mtime & Hin & ->).
    exists (name, RegularFile content mtime).
    split; [now apply list_elem_of_In|now left].
Qed.

End Listing.

(** C10.  LIST always succeeds with a [files] sequence; each of its entries
    describes a regular file of the storage directory and carries the
    file's name, its size, its formatted modification time and
    [exists = true]; every regular file has its entry, and a directory,
    not being a regular file, has none; the call changes nothing in the
    world (no write, nothing read or sent). *)
Theorem list_files_regular `{Runtime} (w : world) :
  exists files,
    FileServer.list_files w
    = (Returned (PDict [("status", PStr "success"); ("files", PList files)]), w)
    /\ (forall entry,
          entry ∈ files <->
          exists name content mtime,
            storage w !! name = Some (RegularFile content mtime)
            /\ entry = PDict [("name", PStr name);
                              ("size", PInt (len content));
                              ("modified", PStr (strftime mtime));
                              ("exists", PBool true)]).
Proof.
  exists (entries_of (map_to_list (storage w))). split; [apply list_files_eq|].
  intros entry. rewrite elem_of_entries_of.
  split; intros (name & content & mtime & Hin & ->); exists name, content, mtime;
    (split; [now apply elem_of_map_to_list|reflexivity]).
Qed.

(** ** Malformed requests *)


(** ** Framing *)

Section Framing.
Context `{Runtime}.

Lemma control_frame_shape (message : pyval) :
  (control_frame message = []
   /\ (forall body, json_dumps message = inr body -> 256 ^ 4 <= len body))
  \/ (exists prefix body,
        control_frame message = [prefix; body]
        /\ json_dumps message = inr body
        /\ length prefix = 4%nat
        /\ int_from_bytes prefix = len body).
Proof.
  unfold control_frame. destruct (json_dumps message) as [e|body].
  - left. split; [reflexivity|discriminate].
  - destruct (Z.ltb_spec (len body) (256 ^ 4)) as [Hfit|Hbig].
    + right. exists (be_digits 4 (len body)), body.
      split; [reflexivity|]. split; [reflexivity|]. split; [apply length_be_digits|].
      apply int_from_bytes_fits. pose proof (len_nonneg body).
      change (Z.of_nat 4) with 4. lia.
    + left. split; [reflexivity|]. now intros ? [= <-].
Qed.

Lemma payload_frame_shape (file_data : bytes) :
  (payload_frame file_data = [] /\ 256 ^ 8 <= len file_data)
  \/ (exists prefix chunks,
        payload_frame file_data = prefix :: chunks
        /\ length prefix = 8%nat
        /\ int_from_bytes prefix = len file_data
        /\ concat chunks = file_data
        /\ Forall (fun chunk => (length chunk <= 4096)%nat) chunks).
Proof.
  unfold payload_frame.
  destruct (Z.ltb_spec (len file_data) (256 ^ 8)) as [Hfit|Hbig]; [right|now left].
  eexists _, _. split; [reflexivity|].
  split; [|split; [|split]].
  - apply length_be_digits.
  - apply int_from_bytes_fits. pose proof (len_nonneg file_data).
    change (Z.of_nat 8) with 8. lia.
  - now apply concat_slices.
  - apply Forall_forall. intros chunk Hin.
    apply list_elem_of_In, in_map_iff in Hin as (i & <- & _).
    unfold slice. rewrite length_take. lia.
Qed.



End Framing.


(** ** Uploads *)

Lemma truthy_str (name : string) : name <> "" -> truthy (PStr name) = true.
Proof. intros Hne. cbn. apply negb_true_iff. now apply String.eqb_neq. Qed.

Section Upload.
Context `{Runtime}.

(** [receive_file_data] always returns, and only moves the input queue. *)
Lemma receive_file_data_total (w : world) :
  exists received rest,
    FileServer.receive_file_data w = (Returned received, set_inbound rest w)
    /\ (length (concat rest) <= pending w)%nat.
Proof.
  destruct (recv_spec 8 w) as (size_bytes & rest0 & Hrecv & _ & Hrest0 & _ & _).
  assert (Hle0 : (length (concat rest0) <= pending w)%nat).
  { rewrite Hrest0, length_drop. unfold pending. lia. }
  destruct (Nat.eq_dec (length size_bytes) 8%nat) as [Hlen|Hlen].
  - destruct (receive_file_data_spec w _ size_bytes Hrecv Hlen) as (rest & Heq & Hrest).
    eexists _, rest. split; [exact Heq|].
    rewrite Hrest, length_drop. cbn [inbound set_inbound]. lia.
  - exists None, rest0. split; [|exact Hle0].
    now apply (receive_file_data_short w _ size_bytes).
Qed.

(** An UPLOAD whose size prefix arrives in one piece stores whatever
    follows on the stream, up to the declared size: the first [n] bytes
    when they are there, however they are cut into segments, and fewer when
    the stream ends before. *)
Lemma upload_is_stored (request_data : bytes) (request : dict) (name : string)
    (size_bytes : bytes) (w w1 : world) :
  json_loads request_data = inr (PDict request) ->
  command_of request = PStr "UPLOAD" ->
  filename_of request = PStr name ->
  name <> "" ->
  is_directory (storage w) name = false ->
  recv 8 w = (Returned size_bytes, w1) ->
  length size_bytes = 8%nat ->
  let received := take (Z.to_nat (int_from_bytes size_bytes)) (concat (inbound w1)) in
  let response :=
    PDict [("status", PStr "success");
           ("message", PStr ("File " +:+ name +:+ " stored successfully"));
           ("size", PInt (len received))] in
  exists rest,
    FileServer.handle_request request_data w
    = (Returned Continue,
       sent (control_frame response) (Respond response)
            (set_storage (<[name := RegularFile received (clock w)]> (storage w))
                         (set_inbound rest w)))
    /\ concat rest = drop (Z.to_nat (int_from_bytes size_bytes)) (concat (inbound w1)).
Proof.
  intros Hloads Hcmd Hfile Hne Hdir Hrecv Hlen received response.
  destruct (receive_file_data_spec w w1 size_bytes Hrecv Hlen) as (rest & Hdata & Hrest).
  exists rest. split; [|exact Hrest].
  assert (Hw1 : set_inbound rest w1 = set_inbound rest w).
  { unfold recv in Hrecv. destruct (recv_from _ _) in Hrecv. now injection Hrecv as _ <-. }
  rewrite Hw1 in Hdata.
  enter_request Hloads. fold (command_of request). rewrite Hcmd.
  cbn [eq_str String.eqb Ascii.eqb Bool.eqb].
  unfold bind at 1; cbn [py_get ret].
  fold (filename_of request). rewrite Hfile, (truthy_str name Hne).
  unfold bind at 1. unfold bind at 1. rewrite Hdata.
  rewrite store_file_ok by exact Hdir.
  unfold bind. rewrite send_response_eq. reflexivity.
Qed.

End Upload.

(** What one side frames as a raw payload, the other side receives whole:
    the length prefix arrives as the first segment, and the chunks, however
    many, are gathered back into the content. *)
Lemma payload_frame_received `{Runtime} (file_data : bytes) (after : list bytes) (w : world) :
  len file_data < 256 ^ 8 ->
  inbound w = payload_frame file_data ++ after ->
  exists rest,
    FileServer.receive_file_data w = (Returned (Some file_data), set_inbound rest w)
    /\ concat rest = concat after.
Proof.
  intros Hfit Hin.
  destruct (payload_frame_shape file_data)
    as [[_ Hbig]|(prefix & chunks & Hframe & Hlen & Hsize & Hchunks & _)]; [lia|].
  rewrite Hframe in Hin.
  assert (Hrecv : recv 8 w = (Returned prefix, set_inbound (chunks ++ after) w)).
  { unfold recv. rewrite Hin. cbn [app recv_from].
    destruct prefix as [|b prefix]; [discriminate|].
    change (Z.to_nat 8) with 8%nat.
    rewrite take_ge, drop_ge by lia. reflexivity. }
  destruct (receive_file_data_spec w _ prefix Hrecv Hlen) as (rest & Heq & Hrest).
  cbn [inbound set_inbound] in *. rewrite Hsize in *.
  assert (Hn : Z.to_nat (len file_data) = length file_data) by (unfold len; lia).
  rewrite Hn, concat_app, Hchunks in *.
  rewrite take_app_length in Heq. rewrite drop_app_length in Hrest.
  exists rest. split; [exact Heq|exact Hrest].
Qed.

(** C4, the behaviour of the code on a truncated upload.  When the size
    prefix of an UPLOAD arrives whole and the stream ends before the
    declared number of bytes, the server does not answer
    [Failed to receive file data]: it stores the bytes it did receive under
    the requested name and answers with a success response carrying their
    count. *)
Theorem truncated_upload_is_stored `{Runtime} (request_data : bytes)
    (request : dict) (name : string) (size_bytes : bytes) (w w1 : world) :
  json_loads request_data = inr (PDict request) ->
  command_of request = PStr "UPLOAD" ->
  filename_of request = PStr name ->
  name <> "" ->
  is_directory (storage w) name = false ->
  recv 8 w = (Returned size_bytes, w1) ->
  length size_bytes = 8%nat ->
  Z.of_nat (pending w1) < int_from_bytes size_bytes ->
  let received := concat (inbound w1) in
  let response :=
    PDict [("status", PStr "success");
           ("message", PStr ("File " +:+ name +:+ " stored successfully"));
           ("size", PInt (len received))] in
  exists w',
    FileServer.handle_request request_data w = (Returned Continue, w')
    /\ len received < int_from_bytes size_bytes
    /\ file_content (storage w') name = Some received
    /\ history w' = history w ++ [Respond response].
Proof.
  intros Hloads Hcmd Hfile Hne Hdir Hrecv Hlen Hshort received response.
  destruct (upload_is_stored request_data request name size_bytes w w1
              Hloads Hcmd Hfile Hne Hdir Hrecv Hlen) as (rest & Hreq & _).
  assert (Htake : take (Z.to_nat (int_from_bytes size_bytes)) (concat (inbound w1))
                  = received).
  { subst received. apply take_ge. unfold pending in Hshort. lia. }
  rewrite Htake in Hreq. eexists. split; [exact Hreq|].
  split; [subst received; unfold pending, len in *; lia|]. split; [|reflexivity].
  unfold file_content. cbn. now rewrite lookup_insert_eq.
Qed.

(** ** Every request, case by case *)

Lemma eq_str_true (v : pyval) (t : string) : eq_str v t = true -> v = PStr t.
Proof.
  destruct v; cbn; try discriminate. intros Heq. now apply String.eqb_eq in Heq as ->.
Qed.

Lemma advances_sent (w w1 : world) (events : list event) (frames : list bytes) (e : event) :
  advances w w1 events -> advances w (sent frames e w1) (events ++ [e]).
Proof.
  intros (Hp & Hh & Hc). repeat split; cbn.
  - exact Hp.
  - now rewrite Hh, <- app_assoc.
  - exact Hc.
Qed.

Lemma advances_refl (w : world) : advances w w [].
Proof. repeat split. - lia. - now rewrite app_nil_r. Qed.

Lemma advances_storage (fs : gmap string node) (w : world) :
  advances w (set_storage fs w) [].
Proof.
  unfold advances, pending. cbn. split; [lia|]. split; [now rewrite app_nil_r|reflexivity].
Qed.

Lemma str_or_not (v : pyval) : (exists s, v = PStr s) \/ (forall s, v <> PStr s).
Proof. destruct v; try (right; discriminate). left. eauto. Qed.

Ltac events_ok :=
  cbn [app];
  repeat match goal with
         | |- Forall _ _ => constructor
         | |- event_ok _ (Payload _) => exact I
         | |- event_ok _ (Respond _) =>
             first [ split; [now right|reflexivity] | split; [now left|reflexivity] ]
         end.

Section Cases.
Context `{Runtime}.

Lemma store_file_cases (filename : pyval) (file_data : bytes) (w : world) :
  exists response fs,
    FileServer.store_file filename file_data w = (Returned response, set_storage fs w)
    /\ ((status_of response = PStr "success"
         /\ populated response = ["message"; "size"])
        \/ exists message, response = FileServer.error_response message).
Proof.
  assert (Hw : set_storage (storage w) w = w) by now destruct w.
  destruct (str_or_not filename) as [[name ->]|Hns].
  2:{ destruct (store_ops_not_str filename file_data w Hns) as (Hstore & _ & _).
      eexists _, (storage w). rewrite Hw. split; [exact Hstore|right; eauto]. }
  destruct (is_directory (storage w) name) eqn:Hdir.
  - eexists _, (storage w). rewrite Hw.
    split; [now apply store_file_directory|right; eauto].
  - eexists _, _. split; [now apply store_file_ok|left; now split].
Qed.

Lemma delete_file_cases (filename : pyval) (w : world) :
  exists response fs,
    FileServer.delete_file filename w = (Returned response, set_storage fs w)
    /\ ((status_of response = PStr "success" /\ populated response = ["message"])
        \/ exists message, response = FileServer.error_response message).
Proof.
  assert (Hw : set_storage (storage w) w = w) by now destruct w.
  destruct (str_or_not filename) as [[name ->]|Hns].
  2:{ destruct (store_ops_not_str filename [] w Hns) as (_ & _ & Hdelete).
      eexists _, (storage w). rewrite Hw. split; [exact Hdelete|right; eauto]. }
  destruct (storage w !! name) as [[content m|s m]|] eqn:Hlookup.
  - eexists _, _. split;
      [apply (delete_file_ok name content); unfold file_content; now rewrite Hlookup
      |left; split; reflexivity].
  - eexists _, (storage w). rewrite Hw.
    split; [|right; eauto].
    apply delete_file_directory. unfold is_directory. now rewrite Hlookup.
  - eexists _, (storage w). rewrite Hw.
    split; [now apply delete_file_absent|right; eauto].
Qed.

Lemma response_ok_error (command : pyval) (message : string) :
  response_ok command (FileServer.error_response message).
Proof. split; [now right|reflexivity]. Qed.

(** Every way a request can go: it ends without running out of steps, it
    only reads from the stream, the socket stays open, and every response
    it sends has the fields of its kind. *)
Lemma handle_request_summary (request_data : bytes) (w : world) :
  exists out w' events,
    FileServer.handle_request request_data w = (out, w')
    /\ out <> OutOfFuel
    /\ advances w w' events
    /\ Forall (event_ok (command_of_data request_data)) events.
Proof.
  unfold command_of_data.
  destruct (json_loads request_data) as [e|v] eqn:Hloads.
  { assert (Hcases : e = JSONDecodeError \/ e <> JSONDecodeError)
      by (destruct e; auto; right; discriminate).
    destruct Hcases as [-> | Hother].
    - eexists _, _, _. split.
      + unfold FileServer.handle_request, try_except. unfold bind at 1.
        rewrite Hloads. cbn [lift raise]. unfold bind.
        rewrite send_response_eq. reflexivity.
      + split; [discriminate|]. split; [apply (advances_sent w w []), advances_refl|].
        events_ok.
    - exists (Raised e), w, []. split.
      + unfold FileServer.handle_request, try_except. unfold bind at 1.
        rewrite Hloads. cbn [lift raise]. now destruct e.
      + split; [discriminate|]. split; [apply advances_refl|constructor]. }
  destruct v as [| | | | | | |request];
    try (exists (Raised AttributeError), w, []; split;
         [unfold FileServer.handle_request, try_except; unfold bind at 1;
          rewrite Hloads; reflexivity
         |split; [discriminate|split; [apply advances_refl|constructor]]]).
  remember (command_of request) as cmd eqn:Hcmd. symmetry in Hcmd.
  destruct (eq_str cmd "LIST") eqn:HL.
  { apply eq_str_true in HL. rewrite HL in *.
    eexists _, _, _. split.
    - enter_request Hloads. fold (command_of request). rewrite Hcmd.
      cbn [eq_str String.eqb Ascii.eqb Bool.eqb].
      unfold bind at 1. rewrite list_files_eq.
      unfold bind. rewrite send_response_eq. reflexivity.
    - split; [discriminate|]. split; [apply (advances_sent w w []), advances_refl|].
      events_ok. }
  destruct (eq_str cmd "UPLOAD") eqn:HU.
  { apply eq_str_true in HU. rewrite HU in *.
    destruct (truthy (filename_of request)) eqn:Htruthy.
    - destruct (receive_file_data_total w) as (received & rest & Hrecv & Hrest).
      assert (Hadv : advances w (set_inbound rest w) []).
      { repeat split; cbn; [exact Hrest|now rewrite app_nil_r]. }
      destruct received as [file_data|].
      + destruct (store_file_cases (filename_of request) file_data (set_inbound rest w))
          as (response & fs & Hstore & Hshape).
        eexists _, _, _. split.
        * enter_request Hloads. fold (command_of request). rewrite Hcmd.
          cbn [eq_str String.eqb Ascii.eqb Bool.eqb].
          unfold bind at 1; cbn [py_get ret].
          fold (filename_of request). rewrite Htruthy.
          unfold bind at 1. unfold bind at 1. rewrite Hrecv, Hstore.
          unfold bind. rewrite send_response_eq. reflexivity.
        * split; [discriminate|]. split; [now apply (advances_sent w _ [])|].
          cbn [app]. constructor; [|constructor].
          destruct Hshape as [[Hs Hp]|[message ->]]; [|apply response_ok_error].
          split; [now left|now rewrite Hp, Hs].
      + eexists _, _, _. split.
        * enter_request Hloads. fold (command_of request). rewrite Hcmd.
          cbn [eq_str String.eqb Ascii.eqb Bool.eqb].
          unfold bind at 1; cbn [py_get ret].
          fold (filename_of request). rewrite Htruthy.
          unfold bind at 1. unfold bind at 1. rewrite Hrecv.
          unfold bind, ret. rewrite send_response_eq. reflexivity.
        * split; [discriminate|]. split; [now apply (advances_sent w _ [])|].
          events_ok.
    - eexists _, _, _. split.
      + enter_request Hloads. fold (command_of request). rewrite Hcmd.
        cbn [eq_str String.eqb Ascii.eqb Bool.eqb].
        unfold bind at 1; cbn [py_get ret].
        fold (filename_of request). rewrite Htruthy.
        unfold bind, ret. rewrite send_response_eq. reflexivity.
      + split; [discriminate|]. split; [apply (advances_sent w w []), advances_refl|].
        events_ok. }
  destruct (eq_str cmd "DOWNLOAD") eqn:HD.
  { apply eq_str_true in HD. rewrite HD in *.
    destruct (truthy (filename_of request)) eqn:Htruthy.
    - destruct (get_file_cases (filename_of request) w)
        as [(name & content & Hname & Hcontent & Hget) | (message & _ & Hget)].
      + eexists _, _, _. split.
        * enter_request Hloads. fold (command_of request). rewrite Hcmd.
          cbn [eq_str String.eqb Ascii.eqb Bool.eqb].
          unfold bind at 1; cbn [py_get ret].
          fold (filename_of request). rewrite Htruthy.
          unfold bind at 1. unfold bind at 1. rewrite Hget.
          cbn [py_item dict_lookup String.eqb Ascii.eqb Bool.eqb ret].
          unfold bind at 1. cbn [eq_str String.eqb Ascii.eqb Bool.eqb ret].
          unfold bind at 1. cbn [py_item dict_lookup String.eqb Ascii.eqb Bool.eqb ret].
          unfold bind at 1. rewrite send_response_eq.
          unfold bind at 1. cbn [py_item dict_lookup String.eqb Ascii.eqb Bool.eqb ret].
          rewrite send_file_data_eq. reflexivity.
        * split; [discriminate|]. split.
          -- eapply advances_sent, (advances_sent w w []), advances_refl.
          -- events_ok.
      + eexists _, _, _. split.
        * enter_request Hloads. fold (command_of request). rewrite Hcmd.
          cbn [eq_str String.eqb Ascii.eqb Bool.eqb].
          unfold bind at 1; cbn [py_get ret].
          fold (filename_of request). rewrite Htruthy.
          unfold bind at 1. unfold bind at 1. rewrite Hget.
          cbn [py_item dict_lookup String.eqb Ascii.eqb Bool.eqb ret
                 FileServer.error_response].
          unfold bind at 1. cbn [eq_str String.eqb Ascii.eqb Bool.eqb ret].
          rewrite send_response_eq. reflexivity.
        * split; [discriminate|]. split; [apply (advances_sent w w []), advances_refl|].
          events_ok.
    - eexists _, _, _. split.
      + enter_request Hloads. fold (command_of request). rewrite Hcmd.
        cbn [eq_str String.eqb Ascii.eqb Bool.eqb].
        unfold bind at 1; cbn [py_get ret].
        fold (filename_of request). rewrite Htruthy.
        unfold bind at 1. rewrite send_response_eq. reflexivity.
      + split; [discriminate|]. split; [apply (advances_sent w w []), advances_refl|].
        events_ok. }
  destruct (eq_str cmd "DELETE") eqn:HDel.
  { apply eq_str_true in HDel. rewrite HDel in *.
    destruct (truthy (filename_of request)) eqn:Htruthy.
    - destruct (delete_file_cases (filename_of request) w)
        as (response & fs & Hdelete & Hshape).
      eexists _, _, _. split.
      + enter_request Hloads. fold (command_of request). rewrite Hcmd.
        cbn [eq_str String.eqb Ascii.eqb Bool.eqb].
        unfold bind at 1; cbn [py_get ret].
        fold (filename_of request). rewrite Htruthy.
        unfold bind at 1. rewrite Hdelete.
        unfold bind. rewrite send_response_eq. reflexivity.
      + split; [discriminate|]. split.
        * apply (advances_sent w _ []), advances_storage.
        * cbn [app]. constructor; [|constructor].
          destruct Hshape as [[Hs Hp]|[message ->]]; [|apply response_ok_error].
          split; [now left|now rewrite Hp, Hs].
    - eexists _, _, _. split.
      + enter_request Hloads. fold (command_of request). rewrite Hcmd.
        cbn [eq_str String.eqb Ascii.eqb Bool.eqb].
        unfold bind at 1; cbn [py_get ret].
        fold (filename_of request). rewrite Htruthy.
        unfold bind, ret. rewrite send_response_eq. reflexivity.
      + split; [discriminate|]. split; [apply (advances_sent w w []), advances_refl|].
        events_ok. }
  destruct (eq_str cmd "QUIT") eqn:HQ.
  { apply eq_str_true in HQ. rewrite HQ in *.
    eexists _, _, _. split.
    - enter_request Hloads. fold (command_of request). rewrite Hcmd.
      cbn [eq_str String.eqb Ascii.eqb Bool.eqb].
      unfold bind. rewrite send_response_eq. reflexivity.
    - split; [discriminate|]. split; [apply (advances_sent w w []), advances_refl|].
      events_ok. }
  eexists _, _, _. split.
  - enter_request Hloads. fold (command_of request). rewrite Hcmd, HL, HU, HD, HDel, HQ.
    unfold bind. rewrite send_response_eq. reflexivity.
  - split; [discriminate|]. split; [apply (advances_sent w w []), advances_refl|].
    events_ok.
Qed.

End Cases.

(** C5, as amended.  Every response that the handling of a request sends
    is a map with status [success] or [error] whose populated optional
    fields are those of its kind: [message] alone for every error and for
    the successes of DELETE and QUIT, [files] alone for the success of
    LIST, [size] alone for the success of DOWNLOAD, and both [message] and
    [size] for the success of UPLOAD. *)
Theorem response_fields `{Runtime} (request_data : bytes) (w : world) :
  exists events,
    history (snd (FileServer.handle_request request_data w)) = history w ++ events
    /\ forall response,
         Respond response ∈ events ->
         (status_of response = PStr "success" \/ status_of response = PStr "error")
         /\ populated response
            = expected_fields (command_of_data request_data) (status_of response).
Proof.
  destruct (handle_request_summary request_data w)
    as (out & w' & events & Hreq & _ & (_ & Hhistory & _) & Hok).
  exists events. rewrite Hreq. split; [exact Hhistory|].
  intros response Hin. rewrite Forall_forall in Hok.
  exact (Hok _ Hin).
Qed.

(** ** Termination of the loop *)

Section Termination.
Context `{Runtime}.

(** A turn of the loop never runs out of steps, never puts bytes back on
    the stream, and reads at least one byte when the loop goes on. *)
Lemma serve_once_summary (w : world) :
  exists out w',
    FileServer.serve_once w = (out, w')
    /\ out <> OutOfFuel
    /\ (pending w' <= pending w)%nat
    /\ (out = Returned Continue -> (pending w' < pending w)%nat).
Proof.
  destruct (recv 4 w) as [[length_bytes| |] w1] eqn:Hrecv;
    try (unfold recv in Hrecv; destruct (recv_from _ _) in Hrecv; discriminate).
  destruct (recv_pending _ _ _ _ Hrecv) as [Hle1 Hp1].
  unfold FileServer.serve_once. unfold bind at 1. rewrite Hrecv.
  destruct length_bytes as [|b bs].
  { eexists _, _. split; [reflexivity|]. split; [discriminate|].
    split; [lia|discriminate]. }
  cbn [length] in Hle1, Hp1.
  destruct (recv (int_from_bytes (b :: bs)) w1) as [[request_data| |] w2] eqn:Hrecv';
    try (unfold recv in Hrecv'; destruct (recv_from _ _) in Hrecv'; discriminate).
  destruct (recv_pending _ _ _ _ Hrecv') as [Hle2 Hp2].
  unfold bind at 1. rewrite Hrecv'.
  destruct request_data as [|c cs].
  { eexists _, _. split; [reflexivity|]. split; [discriminate|].
    split; [lia|discriminate]. }
  destruct (handle_request_summary (c :: cs) w2)
    as (out & w' & events & Hreq & Hfuel & (Hpending & _ & _) & _).
  exists out, w'. split; [exact Hreq|]. split; [exact Hfuel|].
  split; [|intros _]; lia.
Qed.

(** With more steps than unread bytes the loop ends by itself, and the
    number of steps given beyond that does not matter. *)
Lemma serve_loop_total (fuel : nat) (w : world) :
  (pending w < fuel)%nat ->
  exists out w',
    FileServer.serve_loop fuel w = (out, w')
    /\ out <> OutOfFuel
    /\ forall fuel', (pending w < fuel')%nat -> FileServer.serve_loop fuel' w = (out, w').
Proof.
  revert w. induction fuel as [|fuel IH]; intros w Hfuel; [lia|].
  destruct (serve_once_summary w) as (out & w1 & Honce & Hout & Hle & Hlt).
  cbn [FileServer.serve_loop]. unfold bind. rewrite Honce.
  destruct out as [[|]|e|]; [| | |congruence].
  - destruct (IH w1 ltac:(specialize (Hlt eq_refl); lia)) as (out & w' & Hloop & Hne & Hany).
    exists out, w'. split; [exact Hloop|]. split; [exact Hne|].
    intros [|fuel'] Hfuel'; [lia|].
    cbn [FileServer.serve_loop]. unfold bind. rewrite Honce.
    apply Hany. specialize (Hlt eq_refl). lia.
  - eexists _, _. split; [reflexivity|]. split; [discriminate|].
    intros [|fuel'] Hfuel'; [lia|].
    cbn [FileServer.serve_loop]. unfold bind. now rewrite Honce.
  - eexists _, _. split; [reflexivity|]. split; [discriminate|].
    intros [|fuel'] Hfuel'; [lia|].
    cbn [FileServer.serve_loop]. unfold bind. now rewrite Honce.
Qed.

(** [handle_client] always returns, with the socket closed. *)
Lemma handle_client_closes (w : world) :
  exists w', FileServer.handle_client w = (Returned tt, w') /\ closed w' = true.
Proof.
  destruct (serve_loop_total (S (pending w)) w ltac:(lia)) as (out & w' & Hloop & Hne & _).
  unfold FileServer.handle_client, try_finally, try_except, with_fuel.
  rewrite Hloop. destruct out as [[]|e|]; [| |congruence]; eexists; split; reflexivity.
Qed.

End Termination.

(** ** The theorems at work on sample requests *)

Lemma sizes_fit_empty : sizes_fit ∅.
Proof. intros name content. unfold file_content. now rewrite lookup_empty. Qed.

Lemma sizes_fit_insert (fs : gmap string node) (name : string) (content : bytes) (mtime : Z) :
  len content < 256 ^ 8 ->
  sizes_fit fs ->
  sizes_fit (<[name := RegularFile content mtime]> fs).
Proof.
  intros Hlen Hfs other c. unfold file_content.
  destruct (decide (name = other)) as [->|Hne].
  - rewrite lookup_insert_eq. now intros [= <-].
  - rewrite lookup_insert_ne by exact Hne. apply Hfs.
Qed.

Lemma sizes_fit_with_file : sizes_fit (storage Sample.with_file).
Proof.
  apply (sizes_fit_insert ∅ "a.txt" Sample.hello 1762198620);
    [reflexivity|apply sizes_fit_empty].
Qed.



(** C2 at work: a download of an existing file, and of a missing one. *)
Lemma download_payload_iff_success_witness :
  sizes_fit (storage Sample.with_file)
  /\ exists response,
       (status_of response = PStr "success"
        /\ exists name content,
             filename_of [("command", PStr "DOWNLOAD"); ("filename", PStr "a.txt")]
             = PStr name
             /\ file_content (storage Sample.with_file) name = Some content
             /\ response = PDict [("status", PStr "success"); ("size", PInt (len content))]
             /\ payload_frame content <> []
             /\ FileServer.handle_request (H:=Reference.runtime)
                  Sample.download_request Sample.with_file
                = (Returned Continue,
                   sent (payload_frame content) (Payload content)
                        (sent (control_frame (H:=Reference.runtime) response)
                              (Respond response) Sample.with_file)))
       \/ (status_of response = PStr "error"
           /\ FileServer.handle_request (H:=Reference.runtime)
                Sample.download_request Sample.with_file
              = (Returned Continue,
                 sent (control_frame (H:=Reference.runtime) response)
                      (Respond response) Sample.with_file)).
Proof.
  split; [exact sizes_fit_with_file|].
  apply (download_payload_iff_success (H:=Reference.runtime) Sample.download_request
           [("command", PStr "DOWNLOAD"); ("filename", PStr "a.txt")] Sample.with_file).
  - vm_compute. reflexivity.
  - reflexivity.
  - exact sizes_fit_with_file.
Defined.



(** C4 at work: five bytes announced, two delivered. *)
Lemma truncated_upload_is_stored_witness :
  exists w',
    FileServer.handle_request (H:=Reference.runtime) Sample.upload_request
                              Sample.upload_cut_short
    = (Returned Continue, w')
    /\ len (Sample.ascii_bytes "he") < int_from_bytes (be_digits 8 5)
    /\ file_content (storage w') "a.txt" = Some (Sample.ascii_bytes "he")
    /\ history w'
       = history Sample.upload_cut_short
         ++ [Respond (PDict [("status", PStr "success");
                             ("message", PStr "File a.txt stored successfully");
                             ("size", PInt 2)])].
Proof.
  apply (truncated_upload_is_stored (H:=Reference.runtime) Sample.upload_request
           [("command", PStr "UPLOAD"); ("filename", PStr "a.txt")] "a.txt"
           (be_digits 8 5) Sample.upload_cut_short
           (Sample.receiving [Sample.ascii_bytes "he"] Sample.fresh));
    try (vm_compute; reflexivity).
  discriminate.
Defined.

(** C5 as stated fails on a successful upload: its response populates both
    [message] and [size]. *)
Lemma upload_success_has_two_fields :
  history
    (snd (FileServer.handle_request (H:=Reference.runtime) Sample.upload_request
            Sample.upload_whole))
  = [Respond Sample.stored_hello]
  /\ populated Sample.stored_hello = ["message"; "size"]
  /\ length (populated Sample.stored_hello) <> 1%nat.
Proof.
  split; [vm_compute; reflexivity|]. split; [reflexivity|].
  vm_compute. discriminate.
Qed.




(** ** Sample sessions *)

(** The scenario of an upload, a download, a delete and a listing on one
    connection, the payload of the upload arriving in three segments. *)
Example session_upload_download_delete_list :
  history
    (snd (FileServer.handle_client (H:=Reference.runtime)
            (Sample.receiving
               (Sample.framed Sample.upload_request
                ++ [be_digits 8 5; Sample.ascii_bytes "h"; Sample.ascii_bytes "el";
                    Sample.ascii_bytes "lo"]
                ++ Sample.framed Sample.download_request
                ++ Sample.framed Sample.delete_request
                ++ Sample.framed Sample.list_request)
               Sample.fresh)))
  = [Respond (PDict [("status", PStr "success");
                     ("message", PStr "File a.txt stored successfully");
                     ("size", PInt 5)]);
     Respond (PDict [("status", PStr "success"); ("size", PInt 5)]);
     Payload Sample.hello;
     Respond (PDict [("status", PStr "success");
                     ("message", PStr "File a.txt deleted successfully")]);
     Respond (PDict [("status", PStr "success"); ("files", PList [])])].
Proof. vm_compute. reflexivity. Qed.

(** A known command in lower case is an unknown command, and the same
    connection then serves a LIST. *)
Example session_lowercase_command :
  history
    (snd (FileServer.handle_client (H:=Reference.runtime)
            (Sample.receiving
               (Sample.framed (Reference.json_bytes "{'command': 'list'}")
                ++ Sample.framed Sample.list_request)
               Sample.with_file)))
  = [Respond (FileServer.error_response "Unknown command: list");
     Respond (PDict [("status", PStr "success");
                     ("files",
                      PList [PDict [("name", PStr "a.txt");
                                    ("size", PInt 5);
                                    ("modified", PStr "2025-11-03 19:37:00");
                                    ("exists", PBool true)]])])].
Proof. vm_compute. reflexivity. Qed.

(** The bytes written for a download: the control frame, then the payload
    frame. *)
Example session_download_bytes :
  concat
    (outbound
       (snd (FileServer.handle_request (H:=Reference.runtime)
               Sample.download_request Sample.with_file)))
  = be_digits 4 32
    ++ Reference.json_bytes "{'status': 'success', 'size': 5}"
    ++ be_digits 8 5 ++ Sample.hello.
Proof. vm_compute. reflexivity. Qed.

(** * Further properties of the server *)




(** X4.  A DOWNLOAD or DELETE request whose [filename] is a JSON value that
    is true but not a string (a number, a list, a map) is answered with an
    error response carrying the text of the [TypeError] raised by
    [os.path.join]; the storage directory and the stream are untouched. *)
Theorem non_string_filename_rejected `{Runtime} (request_data : bytes)
    (request : dict) (cmd : string) (w : world) :
  json_loads request_data = inr (PDict request) ->
  command_of request = PStr cmd ->
  cmd ∈ ["DOWNLOAD"; "DELETE"] ->
  truthy (filename_of request) = true ->
  (forall name, filename_of request <> PStr name) ->
  let response :=
    FileServer.error_response (exn_str (TypeError (filename_of request))) in
  let w' := sent (control_frame response) (Respond response) w in
  FileServer.handle_request request_data w = (Returned Continue, w')
  /\ storage w' = storage w
  /\ inbound w' = inbound w.
Proof.
  intros Hloads Hcmd Hin Htruthy Hns response w'.
  destruct (store_ops_not_str (filename_of request) [] w Hns) as (_ & Hget & Hdelete).
  split; [|split; reflexivity].
  enter_request Hloads. fold (command_of request). rewrite Hcmd.
  repeat (apply elem_of_cons in Hin as [-> | Hin]); [| |now apply elem_of_nil in Hin];
    cbn [eq_str String.eqb Ascii.eqb Bool.eqb];
    unfold bind at 1; cbn [py_get ret];
    fold (filename_of request); rewrite Htruthy.
  - unfold bind at 1. unfold bind at 1. rewrite Hget.
    cbn [py_item dict_lookup String.eqb Ascii.eqb Bool.eqb ret FileServer.error_response].
    unfold bind at 1. cbn [eq_str String.eqb Ascii.eqb Bool.eqb ret].
    rewrite send_response_eq. reflexivity.
  - unfold bind at 1. rewrite Hdelete.
    unfold bind. rewrite send_response_eq. reflexivity.
Qed.

(** X5.  The three file-store routines refuse the name of a sub-directory
    of the storage directory: each returns an error response with the text
    of the exception and leaves the world as it was. *)
Theorem directory_name_refused `{Runtime} (name : string) (file_data : bytes) (w : world) :
  is_directory (storage w) name = true ->
  let response := FileServer.error_response (exn_str (IsADirectoryError name)) in
  FileServer.store_file (PStr name) file_data w = (Returned response, w)
  /\ FileServer.get_file (PStr name) w = (Returned response, w)
  /\ FileServer.delete_file (PStr name) w = (Returned response, w).
Proof.
  intros Hdir response. split; [|split].
  - now apply store_file_directory.
  - now apply get_file_directory.
  - now apply delete_file_directory.
Qed.

(** X6.  A DELETE request that names a regular file removes that entry and
    no other, answers with the success response for it, and the file is
    gone for what follows: reading it gives [File <name> not found] and
    LIST has no entry of that name. *)
Theorem delete_removes_file `{Runtime} (request_data : bytes) (request : dict)
    (name : string) (content : bytes) (w : world) :
  json_loads request_data = inr (PDict request) ->
  command_of request = PStr "DELETE" ->
  filename_of request = PStr name ->
  name <> "" ->
  file_content (storage w) name = Some content ->
  let response :=
    PDict [("status", PStr "success");
           ("message", PStr ("File " +:+ name +:+ " deleted successfully"))] in
  exists w',
    FileServer.handle_request request_data w = (Returned Continue, w')
    /\ history w' = history w ++ [Respond response]
    /\ storage w' = delete name (storage w)
    /\ FileServer.get_file (PStr name) w'
       = (Returned (FileServer.error_response ("File " +:+ name +:+ " not found")), w')
    /\ (forall c m, file_entry name c m ∉ entries_of (map_to_list (storage w'))).
Proof.
  intros Hloads Hcmd Hfile Hne Hcontent response.
  eexists. split.
  { enter_request Hloads. fold (command_of request). rewrite Hcmd.
    cbn [eq_str String.eqb Ascii.eqb Bool.eqb].
    unfold bind at 1; cbn [py_get ret].
    fold (filename_of request). rewrite Hfile, (truthy_str name Hne).
    unfold bind at 1. rewrite (delete_file_ok name content w Hcontent).
    unfold bind. rewrite send_response_eq. reflexivity. }
  split; [reflexivity|]. split; [reflexivity|]. split.
  - apply get_file_absent. cbn. apply lookup_delete_eq.
  - intros c m Hin. apply elem_of_entries_of in Hin as (n & c' & m' & Hin & Heq).
    apply elem_of_map_to_list in Hin. cbn in Hin.
    injection Heq as <- _ _. rewrite lookup_delete_eq in Hin. discriminate.
Qed.

(** X7.  A QUIT request is answered with [Goodbye!] and ends the session:
    [handle_client] closes the socket after it, whatever is still on the
    stream stays unread, and the storage directory is untouched. *)
Theorem quit_ends_session `{Runtime} (request_data : bytes) (request : dict)
    (w0 w : world) :
  reads_request w0 request_data w ->
  json_loads request_data = inr (PDict request) ->
  command_of request = PStr "QUIT" ->
  let response := PDict [("status", PStr "success"); ("message", PStr "Goodbye!")] in
  let w' := sent (control_frame response) (Respond response) w in
  FileServer.handle_client w0 = (Returned tt, set_closed true w')
  /\ inbound w' = inbound w
  /\ storage w' = storage w
  /\ history w' = history w ++ [Respond response].
Proof.
  intros Hreads Hloads Hcmd response w'.
  assert (Hreq : FileServer.handle_request request_data w = (Returned Break, w')).
  { enter_request Hloads. fold (command_of request). rewrite Hcmd.
    cbn [eq_str String.eqb Ascii.eqb Bool.eqb].
    unfold bind. rewrite send_response_eq. reflexivity. }
  split; [|repeat split].
  rewrite handle_client_unfold.
  unfold handle_client_for, try_finally, try_except.
  cbn [FileServer.serve_loop]. unfold bind.
  now rewrite (serve_once_reads _ _ _ Hreads), Hreq.
Qed.

(** X8.  When the stream has ended, or when the length prefix that is read
    announces a request of zero bytes, the loop is left at once:
    [handle_client] closes the socket without sending anything, and what
    follows a zero-length prefix on the stream is never taken off it. *)
Theorem silent_close `{Runtime} (w : world) :
  (pending w = 0%nat \/
   exists length_bytes w1,
     recv 4 w = (Returned length_bytes, w1) /\ int_from_bytes length_bytes = 0) ->
  exists w',
    FileServer.handle_client w = (Returned tt, w')
    /\ closed w' = true
    /\ outbound w' = outbound w
    /\ history w' = history w
    /\ storage w' = storage w
    /\ (pending w - 4 <= pending w')%nat.
Proof.
  intros Hcase. rewrite handle_client_unfold.
  unfold handle_client_for, try_finally, try_except.
  cbn [FileServer.serve_loop]. unfold bind at 1.
  unfold FileServer.serve_once. unfold bind at 1.
  destruct (recv_spec 4 w) as (chunk & rest & Hrecv & _ & _ & Hle & _).
  destruct (recv_pending _ _ _ _ Hrecv) as [Hle1 Hp1].
  change (Z.to_nat 4) with 4%nat in Hle.
  rewrite Hrecv.
  assert (Hstop : chunk = [] ->
            exists w', (Returned tt, set_closed true (set_inbound rest w)) = (Returned tt, w')
                       /\ closed w' = true /\ outbound w' = outbound w
                       /\ history w' = history w /\ storage w' = storage w
                       /\ (pending w - 4 <= pending w')%nat).
  { intros ->. eexists. split; [reflexivity|]. repeat split.
    change (pending (set_closed true (set_inbound rest w)))
      with (pending (set_inbound rest w)). lia. }
  destruct Hcase as [Hend | (length_bytes & w1 & Hrecv' & Hzero)].
  - assert (Hnil : chunk = []) by (apply length_zero_iff_nil; lia).
    rewrite Hnil in *. now apply Hstop.
  - rewrite Hrecv in Hrecv'. injection Hrecv' as <- <-.
    destruct chunk as [|b bs]; [now apply Hstop|].
    rewrite Hzero. unfold bind at 1.
    destruct (recv_spec 0 (set_inbound rest w))
      as (chunk' & rest' & Hrecv0 & _ & _ & Hle' & _).
    destruct (recv_pending _ _ _ _ Hrecv0) as [_ Hp2].
    rewrite Hrecv0.
    assert (Hnil : chunk' = []) by (apply length_zero_iff_nil; cbn in Hle'; lia).
    rewrite Hnil in *. eexists. split; [reflexivity|]. repeat split.
    change (pending (set_closed true (set_inbound rest' (set_inbound rest w))))
      with (pending (set_inbound rest' (set_inbound rest w))).
    cbn [length] in Hp2. lia.
Qed.

(** ** What one request may touch *)

Section Footprint.
Context `{Runtime}.






End Footprint.




(** ** The whole session *)

Section Session.
Context `{Runtime}.









End Session.


(** X13.  The body of a request is read with a single [recv]: when the
    four-byte prefix arrives as one segment and the next segment holds no
    more bytes than the prefix announces, that segment alone is handled as
    the request, also when it is shorter than announced, and the segments
    after it are left on the stream to be read as the next length prefix. *)
Theorem request_body_read_once `{Runtime} (prefix segment : bytes)
    (rest : list bytes) (w : world) :
  inbound w = prefix :: segment :: rest ->
  length prefix = 4%nat ->
  segment <> [] ->
  len segment <= int_from_bytes prefix ->
  FileServer.serve_once w
  = FileServer.handle_request segment (set_inbound rest w).
Proof.
  intros Hin Hprefix Hne Hlen.
  assert (Hrecv : recv 4 w = (Returned prefix, set_inbound (segment :: rest) w)).
  { unfold recv. rewrite Hin. destruct prefix as [|b prefix]; [discriminate|].
    change (Z.to_nat 4) with 4%nat. cbn [recv_from].
    rewrite take_ge, drop_ge by lia. reflexivity. }
  assert (Hrecv' : recv (int_from_bytes prefix) (set_inbound (segment :: rest) w)
                   = (Returned segment, set_inbound rest w)).
  { unfold recv. cbn [inbound set_inbound].
    destruct segment as [|c segment]; [congruence|]. cbn [recv_from].
    rewrite take_ge, drop_ge by (unfold len in Hlen; lia). now destruct w. }
  apply serve_once_reads. exists prefix, (set_inbound (segment :: rest) w).
  split; [exact Hrecv|]. split; [now destruct prefix|]. split; [exact Hrecv'|exact Hne].
Qed.


(** * Properties of the client *)

(** ** Printing a size

    The conversion of an integer to a float, by division or for the format
    [.1f], overflows only far beyond the sizes of files. *)

Lemma digits2_pos_bound (p : positive) (k : Z) :
  0 <= k -> Zpos p < 2 ^ k -> Zpos (digits2_pos p) <= k.
Proof.
  revert k. induction p as [p IH|p IH|]; intros k Hk Hlt; cbn [digits2_pos].
  - assert (k <> 0) by (intros ->; cbn in Hlt; lia).
    replace k with (Z.succ (k - 1)) in Hlt by lia.
    rewrite Z.pow_succ_r in Hlt by lia.
    specialize (IH (k - 1) ltac:(lia) ltac:(lia)). lia.
  - assert (k <> 0) by (intros ->; cbn in Hlt; lia).
    replace k with (Z.succ (k - 1)) in Hlt by lia.
    rewrite Z.pow_succ_r in Hlt by lia.
    specialize (IH (k - 1) ltac:(lia) ltac:(lia)). lia.
  - assert (k <> 0) by (intros ->; cbn in Hlt; lia). lia.
Qed.

Lemma Zdigits2_bound (m k : Z) :
  0 <= k -> 0 <= m < 2 ^ k -> 0 <= Zdigits2 m <= k.
Proof.
  intros Hk [Hm Hlt]. destruct m as [|p|p]; cbn; [lia| |lia].
  split; [lia|now apply digits2_pos_bound].
Qed.

Lemma shr_1_le (mrs : shr_record) :
  0 <= shr_m mrs -> 0 <= shr_m (shr_1 mrs) <= shr_m mrs.
Proof.
  destruct mrs as [m r s]. cbn [shr_m]. intros Hm. unfold shr_1.
  destruct m as [|[p|p|]|p]; cbn [shr_m]; lia.
Qed.

Lemma iter_shr_1_le (p : positive) (mrs : shr_record) :
  0 <= shr_m mrs -> 0 <= shr_m (SpecFloat.iter_pos shr_1 p mrs) <= shr_m mrs.
Proof.
  revert mrs. induction p as [p IH|p IH|]; intros mrs Hm; cbn [SpecFloat.iter_pos].
  - pose proof (shr_1_le mrs Hm) as H1.
    pose proof (IH (shr_1 mrs) ltac:(lia)) as H2.
    pose proof (IH (SpecFloat.iter_pos shr_1 p (shr_1 mrs)) ltac:(lia)) as H3. lia.
  - pose proof (IH mrs Hm) as H2.
    pose proof (IH (SpecFloat.iter_pos shr_1 p mrs) ltac:(lia)) as H3. lia.
  - now apply shr_1_le.
Qed.

Lemma shr_fexp_bound (m e k : Z) (l : location) :
  0 <= k -> 0 <= m < 2 ^ k ->
  0 <= shr_m (fst (shr_fexp 53 1024 m e l)) <= m
  /\ snd (shr_fexp 53 1024 m e l) <= Z.max (Z.max e (k + e - 53)) (-1074).
Proof.
  intros Hk Hm. unfold shr_fexp, shr.
  pose proof (Zdigits2_bound m k Hk Hm) as Hd.
  assert (Hrec : shr_m (shr_record_of_loc m l) = m) by (now destruct l as [|[]]).
  assert (Hf : fexp 53 1024 (Zdigits2 m + e) <= Z.max (k + e - 53) (-1074)).
  { unfold fexp, emin. lia. }
  destruct (fexp 53 1024 (Zdigits2 m + e) - e) as [|p|p] eqn:Hshift;
    cbn [fst snd]; rewrite ?Hrec; try lia.
  pose proof (iter_shr_1_le p (shr_record_of_loc m l) ltac:(rewrite Hrec; lia)) as Hi.
  rewrite Hrec in Hi. lia.
Qed.

Lemma round_nearest_even_bound (m : Z) (l : location) :
  0 <= m -> 0 <= round_nearest_even m l <= m + 1.
Proof.
  intros Hm. unfold round_nearest_even.
  destruct l as [|[]]; try destruct (Z.even m); lia.
Qed.

Lemma binary_round_aux_finite (sx : bool) (m e k : Z) :
  0 <= k <= 200 -> 0 <= m < 2 ^ k -> e <= 0 ->
  forall s, binary_round_aux 53 1024 sx m e loc_Exact <> S754_infinity s.
Proof.
  intros Hk Hm He s. unfold binary_round_aux.
  pose proof (shr_fexp_bound m e k loc_Exact ltac:(lia) Hm) as [H1 H1'].
  destruct (shr_fexp 53 1024 m e loc_Exact) as [mrs' e']. cbn [fst snd] in *.
  pose proof (round_nearest_even_bound (shr_m mrs') (loc_of_shr_record mrs')
                ltac:(lia)) as H2.
  set (m2 := round_nearest_even (shr_m mrs') (loc_of_shr_record mrs')) in *.
  assert (Hm2 : 0 <= m2 < 2 ^ (k + 1)).
  { rewrite Z.pow_add_r by lia. lia. }
  pose proof (shr_fexp_bound m2 e' (k + 1) loc_Exact ltac:(lia) Hm2) as [H3 H3'].
  destruct (shr_fexp 53 1024 m2 e' loc_Exact) as [mrs'' e'']. cbn [fst snd] in *.
  destruct (shr_m mrs''); try discriminate.
  destruct (Z.leb_spec e'' (1024 - 53)); [discriminate|lia].
Qed.

Lemma binary_round_finite (sx : bool) (mx : positive) (ex : Z) :
  Zpos mx < 2 ^ 64 -> ex <= 0 ->
  forall s, binary_round 53 1024 sx mx ex <> S754_infinity s.
Proof.
  intros Hm He s. unfold binary_round, shl_align.
  pose proof (digits2_pos_bound mx 64 ltac:(lia) Hm) as Hd.
  assert (Hf : Zpos (digits2_pos mx) + ex - 53
               <= fexp 53 1024 (Zpos (digits2_pos mx) + ex)) by (unfold fexp; lia).
  destruct (fexp 53 1024 (Zpos (digits2_pos mx) + ex) - ex) as [|d|d] eqn:Hshift.
  - apply (binary_round_aux_finite sx (Zpos mx) ex 64); lia.
  - apply (binary_round_aux_finite sx (Zpos mx) ex 64); lia.
  - apply (binary_round_aux_finite sx _ _ (64 + Zpos d)); [lia| |lia].
    change (Pos.iter xO mx d) with (shift_pos d mx).
    rewrite Zpower.shift_pos_correct, Zpower.Zpower_pos_nat, Zpower.Zpower_nat_Z.
    rewrite positive_nat_Z, Z.pow_add_r by lia.
    assert (0 < 2 ^ Zpos d) by (apply Z.pow_pos_nonneg; lia). nia.
Qed.

Lemma format_file_size_check_ok (n : Z) (w : world) :
  0 <= n < 2 ^ 64 ->
  FileClientSession.format_file_size_check (PInt n) w = (Returned tt, w).
Proof.
  intros Hn. unfold FileClientSession.format_file_size_check.
  destruct (n =? 0) eqn:Hzero; [reflexivity|]. apply Z.eqb_neq in Hzero.
  assert (Hpos : Zpos (Z.to_pos n) < 2 ^ 64) by (rewrite Z2Pos.id; lia).
  destruct (1024 <=? n).
  - pose proof (binary_round_finite false (Z.to_pos n) (-10) Hpos ltac:(lia)) as Hfin.
    destruct (binary_round 53 1024 false (Z.to_pos n) (-10));
      try reflexivity. now destruct (Hfin s).
  - rewrite Z.abs_eq by lia.
    pose proof (binary_round_finite (n <? 0) (Z.to_pos n) 0 Hpos ltac:(lia)) as Hfin.
    destruct (binary_round 53 1024 (n <? 0) (Z.to_pos n) 0);
      try reflexivity. now destruct (Hfin s).
Qed.

(** ** Receiving *)

Section ClientReceive.
Context `{Runtime}.

(** A request that can be framed is sent as its frame. *)
Lemma client_send_request_ok (request : pyval) (w : world) :
  control_frame request <> [] ->
  FileClient.send_request request w
  = (Returned tt, set_outbound (outbound w ++ control_frame request) w).
Proof.
  unfold FileClient.send_request, control_frame, try_except, bind, lift.
  destruct (json_dumps request) as [e|body]; [congruence|]. cbn.
  unfold to_bytes.
  destruct (Z.leb_spec 0 (len body)) as [_|Hneg];
    [|pose proof (len_nonneg body); lia].
  change (256 ^ Z.of_nat 4) with (256 ^ 4).
  destruct (len body <? 256 ^ 4); [|congruence]. cbn.
  now rewrite <- app_assoc.
Qed.

(** A frame that arrives as it was written, the prefix in one segment and
    the body in the next, is read back as its body. *)
Lemma recv_frame (n : nat) (prefix body : bytes) (after : list bytes) (w : world) :
  inbound w = prefix :: body :: after ->
  length prefix = S n ->
  body <> [] ->
  int_from_bytes prefix = len body ->
  recv (Z.of_nat (S n)) w = (Returned prefix, set_inbound (body :: after) w)
  /\ recv (int_from_bytes prefix) (set_inbound (body :: after) w)
     = (Returned body, set_inbound after w).
Proof.
  intros Hin Hprefix Hbody Hsize. split.
  - unfold recv. rewrite Hin, Nat2Z.id.
    destruct prefix as [|b prefix]; [discriminate|]. cbn [recv_from].
    rewrite take_ge, drop_ge by lia. reflexivity.
  - unfold recv. cbn [inbound set_inbound]. rewrite Hsize.
    destruct body as [|c body]; [congruence|]. cbn [recv_from].
    unfold len. rewrite Nat2Z.id, take_ge, drop_ge by lia. now destruct w.
Qed.

Lemma control_frame_sendable (message : pyval) :
  control_frame message <> [] ->
  exists body,
    json_dumps message = inr body
    /\ control_frame message = [be_digits 4 (len body); body]
    /\ int_from_bytes (be_digits 4 (len body)) = len body.
Proof.
  intros Hne.
  destruct (control_frame_shape message)
    as [[Hnil _]|(prefix & body & Hframe & Hdumps & _ & Hsize)]; [congruence|].
  exists body. unfold control_frame in Hframe |- *. rewrite Hdumps in Hframe |- *.
  destruct (len body <? 256 ^ 4); [|discriminate].
  injection Hframe as <-. repeat split. exact Hsize.
Qed.

Lemma receive_response_framed (message : pyval) (body : bytes) (after : list bytes)
    (w : world) :
  json_dumps message = inr body ->
  body <> [] ->
  inbound w = control_frame message ++ after ->
  control_frame message <> [] ->
  FileClientSession.receive_response w
  = (Returned match json_loads body with inr v => v | inl _ => PNone end,
     set_inbound after w).
Proof.
  intros Hdumps Hbody Hin Hne.
  destruct (control_frame_sendable message Hne) as (body' & Hdumps' & Hframe & Hsize).
  rewrite Hdumps in Hdumps'. injection Hdumps' as <-.
  rewrite Hframe in Hin. cbn [app] in Hin.
  destruct (recv_frame 3 _ body after w Hin (length_be_digits _ _) Hbody Hsize)
    as [Hrecv Hrecv'].
  unfold FileClientSession.receive_response, try_except.
  unfold bind at 1. change 4 with (Z.of_nat 4) at 1. rewrite Hrecv.
  unfold len at 1. rewrite length_be_digits.
  change (negb (Z.of_nat 4 =? 4)) with false. cbv iota.
  unfold bind at 1. rewrite Hrecv'.
  destruct body as [|c body]; [congruence|].
  now destruct (json_loads (c :: body)).
Qed.



End ClientReceive.

(** X15.  What the server's [send_response] writes, the client's
    [receive_response] reads back: when the frame of a response arrives as
    it was written, the client returns the decoding of the JSON text the
    server produced, and has read the frame and nothing more. *)
Theorem response_round_trip `{Runtime} (response decoded : pyval) (body : bytes)
    (after : list bytes) (ws wc : world) :
  json_dumps response = inr body ->
  body <> [] ->
  len body < 256 ^ 4 ->
  json_loads body = inr decoded ->
  outbound ws = [] ->
  inbound wc = outbound (snd (FileServer.send_response response ws)) ++ after ->
  FileClientSession.receive_response wc = (Returned decoded, set_inbound after wc).
Proof.
  intros Hdumps Hbody Hfit Hloads Hout Hin.
  rewrite send_response_eq in Hin. cbn [snd sent outbound] in Hin.
  rewrite Hout in Hin. cbn [app] in Hin.
  assert (Hne : control_frame response <> []).
  { unfold control_frame. rewrite Hdumps.
    destruct (Z.ltb_spec (len body) (256 ^ 4)); [discriminate|lia]. }
  rewrite (receive_response_framed response body after wc Hdumps Hbody Hin Hne).
  now rewrite Hloads.
Qed.


(** X17.  The client's [receive_file_data] gives up with [False] when the
    size prefix does not arrive as eight bytes in one read, and when the
    path to save to is a directory: nothing is written, and in the second
    case only the size prefix has been read, the payload being left on the
    stream in front of the next response. *)
Theorem client_receive_refused (filepath : string) (size_bytes : bytes)
    (w w1 : world) :
  recv 8 w = (Returned size_bytes, w1) ->
  length size_bytes <> 8%nat \/ is_directory (storage w) filepath = true ->
  FileClientSession.receive_file_data filepath w = (Returned false, w1)
  /\ storage w1 = storage w.
Proof.
  intros Hrecv Hcase.
  assert (Hw1 : storage w1 = storage w).
  { unfold recv in Hrecv. destruct (recv_from _ _) in Hrecv.
    now injection Hrecv as _ <-. }
  split; [|exact Hw1].
  unfold FileClientSession.receive_file_data, try_except.
  unfold bind at 1. rewrite Hrecv.
  destruct (len size_bytes =? 8) eqn:Heq; [|reflexivity].
  apply Z.eqb_eq in Heq. destruct Hcase as [Hlen|Hdir]; [unfold len in Heq; lia|].
  cbn [negb]. unfold bind at 1, write_file at 1. rewrite Hw1.
  unfold is_directory in Hdir.
  now destruct (storage w !! filepath) as [[]|].
Qed.

(** ** The commands of the client *)

Section ClientCommands.
Context `{Runtime}.

(** [receive_response] always returns, and only reads. *)
Lemma receive_response_total (w : world) :
  exists response rest,
    FileClientSession.receive_response w = (Returned response, set_inbound rest w).
Proof.
  unfold FileClientSession.receive_response, try_except.
  destruct (recv_spec 4 w) as (length_bytes & rest & Hrecv & _).
  unfold bind at 1. rewrite Hrecv.
  destruct (negb (len length_bytes =? 4)); [now eexists _, _|].
  destruct (recv_spec (int_from_bytes length_bytes) (set_inbound rest w))
    as (response_data & rest' & Hrecv' & _).
  unfold bind at 1. rewrite Hrecv'.
  assert (Hw : set_inbound rest' (set_inbound rest w) = set_inbound rest' w)
    by reflexivity.
  rewrite Hw.
  destruct response_data as [|c cs]; [now eexists _, _|].
  destruct (json_loads (c :: cs)); now eexists _, _.
Qed.

(** What a command does with the answer, a success or not, changes
    nothing: it only prints, or raises for the [except] clause around it. *)
Lemma answer_handled (response : pyval) (w : world) :
  exists out,
    (ok <- FileClientSession.is_success response ;;
     if ok : bool then ret tt else FileClientSession.report_failure response) w
    = (out, w)
    /\ out <> OutOfFuel.
Proof.
  unfold FileClientSession.is_success, FileClientSession.report_failure.
  destruct response; cbn; try (eexists; split; [reflexivity|discriminate]).
  all: repeat match goal with
         | |- context [if ?b then _ else _] => destruct b; cbn
         | |- context [match ?b with S754_zero _ => _ | _ => _ end] => destruct b; cbn
         end; eexists; split; try reflexivity; discriminate.
Qed.

(** The same for an answer that is a map without the status [success]. *)
Lemma failure_handled (d : dict) (w : world) :
  dict_get d "status" PNone <> PStr "success" ->
  (ok <- FileClientSession.is_success (PDict d) ;;
   if ok : bool then ret tt else FileClientSession.report_failure (PDict d)) w
  = (Returned tt, w).
Proof.
  intros Hstatus.
  unfold FileClientSession.is_success, FileClientSession.report_failure.
  destruct (truthy (PDict d)); [|reflexivity].
  cbn. now rewrite (eq_str_other _ _ Hstatus).
Qed.

(** A file that fits the eight-byte prefix is sent as its payload frame. *)
Lemma client_send_file_data_ok (filepath : string) (file_data : bytes) (w : world) :
  file_content (storage w) filepath = Some file_data ->
  len file_data < 256 ^ 8 ->
  FileClient.send_file_data filepath w
  = (Returned true, set_outbound (outbound w ++ payload_frame file_data) w).
Proof.
  intros Hfile Hfit.
  unfold FileClient.send_file_data, payload_frame, file_content, try_except in *.
  unfold bind at 1, read_file at 1.
  destruct (storage w !! filepath) as [[content mtime|st_size mtime]|];
    try discriminate.
  injection Hfile as ->.
  unfold bind at 1, to_bytes.
  destruct (Z.leb_spec 0 (len file_data)) as [_|Hneg];
    [|pose proof (len_nonneg file_data); lia].
  change (256 ^ Z.of_nat 8) with (256 ^ 8).
  destruct (Z.ltb_spec (len file_data) (256 ^ 8)) as [_|Hbig]; [|lia].
  cbn [andb]. unfold ret at 1. unfold bind at 1, send at 1.
  unfold bind at 1. rewrite for_each_send. cbn. now rewrite <- app_assoc.
Qed.

(** A path that cannot be read as a file sends nothing. *)
Lemma client_send_file_data_unreadable (filepath : string) (w : world) :
  file_content (storage w) filepath = None ->
  FileClient.send_file_data filepath w = (Returned false, w).
Proof.
  intros Hfile.
  unfold FileClient.send_file_data, file_content, try_except in *.
  unfold bind at 1, read_file at 1.
  now destruct (storage w !! filepath) as [[content mtime|st_size mtime]|].
Qed.

(** An answer that arrives with its four-byte prefix in one segment and
    its body in the next is decoded from that body. *)
Lemma receive_response_body (prefix body : bytes) (after : list bytes) (w : world) :
  inbound w = prefix :: body :: after ->
  length prefix = 4%nat ->
  int_from_bytes prefix = len body ->
  body <> [] ->
  FileClientSession.receive_response w
  = (Returned match json_loads body with inr v => v | inl _ => PNone end,
     set_inbound after w).
Proof.
  intros Hin Hprefix Hsize Hbody.
  destruct (recv_frame 3 prefix body after w Hin Hprefix Hbody Hsize) as [Hrecv Hrecv'].
  unfold FileClientSession.receive_response, try_except.
  unfold bind at 1. change 4 with (Z.of_nat 4) at 1. rewrite Hrecv.
  unfold len at 1. rewrite Hprefix.
  change (negb (Z.of_nat 4 =? 4)) with false. cbv iota.
  unfold bind at 1. rewrite Hrecv'.
  destruct body as [|c body]; [congruence|].
  now destruct (json_loads (c :: body)).
Qed.


End ClientCommands.

(** X18.  [download_file] after an answer that is a map without the
    status [success] (the server's error response): the request has been
    sent and the answer read, and that is all; no payload is awaited, no
    file is created or changed, and what follows the answer stays on the
    stream. *)
Theorem failed_download_writes_nothing `{Runtime} (filename : string)
    (save_path : option string) (prefix body : bytes) (d : dict)
    (after : list bytes) (w : world) :
  let request := PDict [("command", PStr "DOWNLOAD"); ("filename", PStr filename)] in
  control_frame request <> [] ->
  inbound w = prefix :: body :: after ->
  length prefix = 4%nat ->
  int_from_bytes prefix = len body ->
  body <> [] ->
  json_loads body = inr (PDict d) ->
  dict_get d "status" PNone <> PStr "success" ->
  FileClientSession.download_file filename save_path w
  = (Returned tt,
     set_inbound after (set_outbound (outbound w ++ control_frame request) w)).
Proof.
  intros request Hsend Hin Hprefix Hsize Hbody Hloads Hstatus.
  unfold FileClientSession.download_file, try_except.
  unfold bind at 1. fold request. rewrite (client_send_request_ok request w Hsend).
  unfold bind at 1.
  rewrite (receive_response_body prefix body after
             (set_outbound (outbound w ++ control_frame request) w)
             Hin Hprefix Hsize Hbody), Hloads.
  unfold bind at 1, FileClientSession.is_success at 1.
  destruct (truthy (PDict d)); [|reflexivity].
  unfold bind at 1. cbn [py_get ret]. rewrite (eq_str_other _ _ Hstatus).
  reflexivity.
Qed.

(** X19.  [upload_file] on a path that holds no regular file.  For a
    missing path nothing is sent.  For a directory the UPLOAD request is
    sent, reading the directory then fails, and the method returns: no
    payload follows the request, and the answer is not awaited.  In both
    cases the client's files and its unread input are untouched. *)
Theorem upload_without_file `{Runtime} (filepath : string) (w : world) :
  let request :=
    PDict [("command", PStr "UPLOAD");
           ("filename", PStr (os_path_basename filepath))] in
  file_content (storage w) filepath = None ->
  (forall st_size mtime,
     storage w !! filepath = Some (Directory st_size mtime) -> 0 <= st_size < 2 ^ 64) ->
  control_frame request <> [] ->
  FileClientSession.upload_file filepath w
  = (Returned tt,
     set_outbound (outbound w ++ match storage w !! filepath with
                                 | Some _ => control_frame request
                                 | None => []
                                 end) w).
Proof.
  intros request Hfile Hsize Hsend.
  pose proof (client_send_file_data_unreadable filepath) as Hunreadable.
  unfold FileClientSession.upload_file, try_except.
  unfold bind at 1, os_path_exists at 1.
  unfold file_content in Hfile, Hunreadable.
  destruct (storage w !! filepath) as [[content mtime|st_size mtime]|] eqn:Hlookup;
    [discriminate| |].
  - cbn [negb]. unfold bind at 1, os_stat at 1. rewrite Hlookup. cbn [fst].
    unfold bind at 1.
    rewrite (format_file_size_check_ok st_size w (Hsize _ _ eq_refl)).
    unfold bind at 1. fold request. rewrite (client_send_request_ok request w Hsend).
    unfold bind at 1. rewrite Hunreadable by (cbn; now rewrite Hlookup).
    reflexivity.
  - cbn. rewrite app_nil_r. now destruct w.
Qed.


(** X21.  An upload from end to end.  When the client uploads a regular
    file and what it writes to its socket arrives at the server as written,
    one turn of the server's loop stores the content under the base name of
    the client's path, byte for byte, reads all that was sent and nothing
    more, and sends the success response with the size of the file. *)
Theorem upload_reaches_server `{Runtime} (filepath name : string)
    (content request_body : bytes) (wc ws : world) :
  let request := PDict [("command", PStr "UPLOAD"); ("filename", PStr name)] in
  file_content (storage wc) filepath = Some content ->
  len content < 2 ^ 64 ->
  os_path_basename filepath = name ->
  name <> "" ->
  json_dumps request = inr request_body ->
  request_body <> [] ->
  len request_body < 256 ^ 4 ->
  json_loads request_body = inr request ->
  outbound wc = [] ->
  inbound ws = outbound (snd (FileClientSession.upload_file filepath wc)) ->
  is_directory (storage ws) name = false ->
  exists ws',
    FileServer.serve_once ws = (Returned Continue, ws')
    /\ file_content (storage ws') name = Some content
    /\ (forall other, other <> name -> storage ws' !! other = storage ws !! other)
    /\ concat (inbound ws') = []
    /\ history ws'
       = history ws
         ++ [Respond (PDict [("status", PStr "success");
                             ("message", PStr ("File " +:+ name +:+ " stored successfully"));
                             ("size", PInt (len content))])].
Proof.
  intros request Hfile Hfit Hbase Hname Hdumps Hbody Hlen Hloads Hout Hin Hdir.
  assert (Hsend : control_frame request <> []).
  { unfold control_frame. rewrite Hdumps.
    destruct (Z.ltb_spec (len request_body) (256 ^ 4)); [discriminate|lia]. }
  destruct (control_frame_sendable request Hsend) as (body' & Hdumps' & Hframe & Hsize).
  rewrite Hdumps in Hdumps'. injection Hdumps' as <-.
  (* what the client wrote *)
  assert (Hwritten : outbound (snd (FileClientSession.upload_file filepath wc))
                     = control_frame request ++ payload_frame content).
  { unfold FileClientSession.upload_file, try_except.
    unfold bind at 1, os_path_exists at 1.
    unfold file_content in Hfile.
    destruct (storage wc !! filepath) as [[c mtime|? ?]|] eqn:Hlookup; try discriminate.
    injection Hfile as ->. cbn [negb].
    unfold bind at 1, os_stat at 1. rewrite Hlookup. cbn [fst].
    unfold bind at 1.
    rewrite (format_file_size_check_ok (len content) wc)
      by (pose proof (len_nonneg content); lia).
    unfold bind at 1. rewrite Hbase. fold request.
    rewrite (client_send_request_ok request wc Hsend).
    unfold bind at 1.
    rewrite (client_send_file_data_ok filepath content)
      by (try (unfold file_content; cbn; now rewrite Hlookup);
          change (256 ^ 8) with (2 ^ 64); lia).
    cbn [outbound set_outbound].
    destruct (receive_response_total
                (set_outbound ((outbound wc ++ control_frame request)
                               ++ payload_frame content)
                   (set_outbound (outbound wc ++ control_frame request) wc)))
      as (response & rest & Hresponse).
    unfold bind at 1. rewrite Hresponse.
    destruct (answer_handled response
                (set_inbound rest
                   (set_outbound ((outbound wc ++ control_frame request)
                                  ++ payload_frame content)
                      (set_outbound (outbound wc ++ control_frame request) wc))))
      as (out & Hanswer & Hout').
    rewrite Hanswer. rewrite Hout.
    destruct out as [[]|e|]; [| |congruence]; reflexivity. }
  rewrite Hwritten, Hframe in Hin. cbn [app] in Hin.
  (* the server's turn *)
  destruct (recv_frame 3 _ request_body (payload_frame content) ws Hin
              (length_be_digits _ _) Hbody Hsize) as [Hrecv Hrecv'].
  assert (Hreads : reads_request ws request_body
                     (set_inbound (payload_frame content) ws)).
  { eexists _, _. split; [exact Hrecv|]. split; [|split; [exact Hrecv'|exact Hbody]].
    intros Hnil. apply (f_equal length) in Hnil.
    rewrite length_be_digits in Hnil. discriminate. }
  rewrite (serve_once_reads _ _ _ Hreads).
  destruct (payload_frame_shape content)
    as [[_ Hbig]|(prefix & chunks & Hpayload & Hplen & Hpsize & Hchunks & _)];
    [change (256 ^ 8) with (2 ^ 64) in Hbig; lia|].
  set (w1 := set_inbound (payload_frame content) ws) in *.
  assert (Hrecv8 : recv 8 w1 = (Returned prefix, set_inbound chunks w1)).
  { unfold recv. subst w1. cbn [inbound set_inbound]. rewrite Hpayload.
    destruct prefix as [|b prefix]; [discriminate|].
    change (Z.to_nat 8) with 8%nat. cbn [recv_from].
    rewrite take_ge, drop_ge by lia. reflexivity. }
  destruct (upload_is_stored request_body
              [("command", PStr "UPLOAD"); ("filename", PStr name)] name prefix
              w1 (set_inbound chunks w1) Hloads eq_refl eq_refl Hname Hdir Hrecv8 Hplen)
    as (rest & Hreq & Hrest).
  cbn [inbound set_inbound] in Hreq, Hrest.
  assert (Hn : Z.to_nat (int_from_bytes prefix) = length content)
    by (rewrite Hpsize; unfold len; lia).
  rewrite Hn, Hchunks, take_ge in Hreq by lia.
  rewrite Hn, Hchunks, drop_ge in Hrest by lia.
  eexists. split; [exact Hreq|]. cbn.
  split; [unfold file_content; now rewrite lookup_insert_eq|].
  split; [intros other Hother; now rewrite lookup_insert_ne|].
  split; [exact Hrest|reflexivity].
Qed.



(** ** The properties at work on sample requests *)



(** X4 at work: a DELETE request whose file name is the number 7. *)
Lemma non_string_filename_rejected_witness :
  FileServer.handle_request (H:=Reference.runtime)
    (Reference.json_bytes "{'command': 'DELETE', 'filename': 7}") Sample.with_file
  = (Returned Continue,
     sent (control_frame (H:=Reference.runtime)
             (FileServer.error_response (exn_str (Runtime:=Reference.runtime) (TypeError (PInt 7)))))
          (Respond (FileServer.error_response (exn_str (Runtime:=Reference.runtime) (TypeError (PInt 7)))))
          Sample.with_file)
  /\ storage Sample.with_file = storage Sample.with_file
  /\ inbound Sample.with_file = inbound Sample.with_file.
Proof.
  apply (non_string_filename_rejected (H:=Reference.runtime)
           (Reference.json_bytes "{'command': 'DELETE', 'filename': 7}")
           [("command", PStr "DELETE"); ("filename", PInt 7)] "DELETE" Sample.with_file).
  - vm_compute. reflexivity.
  - reflexivity.
  - apply elem_of_cons. right. apply elem_of_cons. now left.
  - reflexivity.
  - discriminate.
Defined.

(** X5 at work: the sub-directory [docs]. *)
Lemma directory_name_refused_witness :
  FileServer.store_file (H:=Reference.runtime) (PStr "docs") Sample.hello
                        Sample.with_directory
  = (Returned (FileServer.error_response (exn_str (Runtime:=Reference.runtime) (IsADirectoryError "docs"))),
     Sample.with_directory)
  /\ FileServer.get_file (H:=Reference.runtime) (PStr "docs") Sample.with_directory
     = (Returned (FileServer.error_response (exn_str (Runtime:=Reference.runtime) (IsADirectoryError "docs"))),
        Sample.with_directory)
  /\ FileServer.delete_file (H:=Reference.runtime) (PStr "docs") Sample.with_directory
     = (Returned (FileServer.error_response (exn_str (Runtime:=Reference.runtime) (IsADirectoryError "docs"))),
        Sample.with_directory).
Proof.
  apply (directory_name_refused (H:=Reference.runtime) "docs" Sample.hello
           Sample.with_directory).
  vm_compute. reflexivity.
Defined.

(** X6 at work: deleting [a.txt] where it exists. *)
Lemma delete_removes_file_witness :
  exists w',
    FileServer.handle_request (H:=Reference.runtime) Sample.delete_request Sample.with_file
    = (Returned Continue, w')
    /\ history w'
       = history Sample.with_file
         ++ [Respond (PDict [("status", PStr "success");
                             ("message", PStr "File a.txt deleted successfully")])]
    /\ storage w' = delete "a.txt" (storage Sample.with_file)
    /\ FileServer.get_file (H:=Reference.runtime) (PStr "a.txt") w'
       = (Returned Sample.not_found, w')
    /\ (forall c m, file_entry (H:=Reference.runtime) "a.txt" c m
                    ∉ entries_of (H:=Reference.runtime) (map_to_list (storage w'))).
Proof.
  apply (delete_removes_file (H:=Reference.runtime) Sample.delete_request
           [("command", PStr "DELETE"); ("filename", PStr "a.txt")] "a.txt"
           Sample.hello Sample.with_file);
    try (vm_compute; reflexivity).
  discriminate.
Defined.

(** X7 at work: a QUIT request followed by a LIST request that is never
    read. *)
Lemma quit_ends_session_witness :
  FileServer.handle_client (H:=Reference.runtime)
    (Sample.receiving (Sample.framed Sample.quit_request
                       ++ Sample.framed Sample.list_request) Sample.fresh)
  = (Returned tt,
     set_closed true
       (sent (control_frame (H:=Reference.runtime)
                (PDict [("status", PStr "success"); ("message", PStr "Goodbye!")]))
             (Respond (PDict [("status", PStr "success"); ("message", PStr "Goodbye!")]))
             (Sample.receiving (Sample.framed Sample.list_request) Sample.fresh)))
  /\ inbound (Sample.receiving (Sample.framed Sample.list_request) Sample.fresh)
     = Sample.framed Sample.list_request
  /\ storage Sample.fresh = storage Sample.fresh
  /\ [Respond (PDict [("status", PStr "success"); ("message", PStr "Goodbye!")])]
     = history Sample.fresh
       ++ [Respond (PDict [("status", PStr "success"); ("message", PStr "Goodbye!")])].
Proof.
  apply (quit_ends_session (H:=Reference.runtime) Sample.quit_request
           [("command", PStr "QUIT")]
           (Sample.receiving (Sample.framed Sample.quit_request
                              ++ Sample.framed Sample.list_request) Sample.fresh)
           (Sample.receiving (Sample.framed Sample.list_request) Sample.fresh)).
  - exists (be_digits 4 (len Sample.quit_request)),
      (Sample.receiving (Sample.quit_request :: Sample.framed Sample.list_request)
                        Sample.fresh).
    split; [vm_compute; reflexivity|]. split; [vm_compute; discriminate|].
    split; [vm_compute; reflexivity|vm_compute; discriminate].
  - vm_compute. reflexivity.
  - reflexivity.
Defined.

(** X8 at work: a peer that connects and sends nothing. *)
Lemma silent_close_witness :
  exists w',
    FileServer.handle_client (H:=Reference.runtime) Sample.fresh = (Returned tt, w')
    /\ closed w' = true
    /\ outbound w' = outbound Sample.fresh
    /\ history w' = history Sample.fresh
    /\ storage w' = storage Sample.fresh
    /\ (pending Sample.fresh - 4 <= pending w')%nat.
Proof.
  apply (silent_close (H:=Reference.runtime) Sample.fresh). now left.
Defined.



(** X13 at work: a LIST request whose body arrives in two segments; the
    first five bytes are handled as the request. *)
Lemma request_body_read_once_witness :
  FileServer.serve_once (H:=Reference.runtime)
    (Sample.receiving [be_digits 4 (len Sample.list_request);
                       take 5 Sample.list_request;
                       drop 5 Sample.list_request] Sample.fresh)
  = FileServer.handle_request (H:=Reference.runtime) (take 5 Sample.list_request)
      (set_inbound [drop 5 Sample.list_request]
         (Sample.receiving [be_digits 4 (len Sample.list_request);
                            take 5 Sample.list_request;
                            drop 5 Sample.list_request] Sample.fresh)).
Proof.
  apply (request_body_read_once (H:=Reference.runtime)
           (be_digits 4 (len Sample.list_request)) (take 5 Sample.list_request)
           [drop 5 Sample.list_request]).
  - reflexivity.
  - reflexivity.
  - vm_compute. discriminate.
  - vm_compute. discriminate.
Defined.


(** X15 at work: the success response of an upload, sent and read back. *)
Lemma response_round_trip_witness :
  FileClientSession.receive_response (H:=Reference.runtime)
    (Sample.receiving (Sample.framed (ClientSample.encoded Sample.stored_hello))
                      Sample.fresh)
  = (Returned Sample.stored_hello,
     set_inbound []
       (Sample.receiving (Sample.framed (ClientSample.encoded Sample.stored_hello))
                         Sample.fresh)).
Proof.
  apply (response_round_trip (H:=Reference.runtime) Sample.stored_hello
           Sample.stored_hello (ClientSample.encoded Sample.stored_hello) []
           Sample.fresh);
    try (vm_compute; reflexivity).
  vm_compute. discriminate.
Defined.


(** X17 at work: saving to the directory [docs]; the five bytes of the
    payload stay on the stream. *)
Lemma client_receive_refused_witness :
  FileClientSession.receive_file_data "docs"
    (Sample.receiving [be_digits 8 5; Sample.hello] Sample.with_directory)
  = (Returned false, Sample.receiving [Sample.hello] Sample.with_directory)
  /\ storage (Sample.receiving [Sample.hello] Sample.with_directory)
     = storage (Sample.receiving [be_digits 8 5; Sample.hello] Sample.with_directory).
Proof.
  apply (client_receive_refused "docs" (be_digits 8 5)).
  - reflexivity.
  - right. reflexivity.
Defined.

(** X18 at work: the download of a file the server does not have. *)
Lemma failed_download_writes_nothing_witness :
  FileClientSession.download_file (H:=Reference.runtime) "a.txt" None
    (Sample.receiving ClientSample.not_found_frame Sample.fresh)
  = (Returned tt,
     set_inbound []
       (set_outbound
          (outbound (Sample.receiving ClientSample.not_found_frame Sample.fresh)
           ++ control_frame (H:=Reference.runtime) ClientSample.download_a)
          (Sample.receiving ClientSample.not_found_frame Sample.fresh))).
Proof.
  apply (failed_download_writes_nothing (H:=Reference.runtime) "a.txt" None
           (be_digits 4 (len (ClientSample.encoded Sample.not_found)))
           (ClientSample.encoded Sample.not_found)
           [("status", PStr "error"); ("message", PStr "File a.txt not found")]
           [] (Sample.receiving ClientSample.not_found_frame Sample.fresh));
    try (vm_compute; reflexivity); vm_compute; discriminate.
Defined.

(** X19 at work: the upload of the directory [docs]. *)
Lemma upload_without_file_witness :
  FileClientSession.upload_file (H:=Reference.runtime) "docs" ClientSample.with_local_file
  = (Returned tt,
     set_outbound (control_frame (H:=Reference.runtime) ClientSample.upload_docs)
                  ClientSample.with_local_file).
Proof.
  apply (upload_without_file (H:=Reference.runtime) "docs" ClientSample.with_local_file).
  - vm_compute. reflexivity.
  - intros st_size mtime Hdir. vm_compute in Hdir. injection Hdir as <- _. lia.
  - vm_compute. discriminate.
Defined.


(** X21 at work: the client uploads [docs/a.txt], the server stores
    [a.txt]. *)
Lemma upload_reaches_server_witness :
  exists ws',
    FileServer.serve_once (H:=Reference.runtime)
      (Sample.receiving
         (outbound (snd (FileClientSession.upload_file (H:=Reference.runtime)
                           "docs/a.txt" ClientSample.with_local_file)))
         Sample.with_old_file)
    = (Returned Continue, ws')
    /\ file_content (storage ws') "a.txt" = Some Sample.hello
    /\ history ws' = [Respond Sample.stored_hello].
Proof.
  destruct (upload_reaches_server (H:=Reference.runtime) "docs/a.txt" "a.txt"
              Sample.hello (ClientSample.encoded ClientSample.upload_a)
              ClientSample.with_local_file
              (Sample.receiving
                 (outbound (snd (FileClientSession.upload_file (H:=Reference.runtime)
                                   "docs/a.txt" ClientSample.with_local_file)))
                 Sample.with_old_file))
    as (ws' & Hturn & Hfile & _ & _ & Hhistory);
    try (vm_compute; reflexivity); try (vm_compute; discriminate).
  exists ws'. split; [exact Hturn|]. split; [exact Hfile|exact Hhistory].
Defined.


